(** * Deep500 recipe runner ([recipes/recipe.py]): model and properties

    [run_recipe fixed mutable metrics] merges two configuration dictionaries,
    completes every component key with [<key>_args] / [<key>_kwargs], builds
    the dataset -> model -> samplers -> executor -> optimizer pipeline by
    calling external collaborators, runs the training loop and compares the
    returned measurements against acceptance thresholds.

    The model is a shallow embedding: Python dictionaries are insertion-ordered
    association lists living in a store (so aliasing and in-place mutation are
    visible), exceptions and store updates are threaded through a state and
    error monad, and every call into a collaborator is answered by an
    environment and logged in a trace. *)

From Stdlib Require Import ZArith String List Bool Floats Lia.
From stdpp Require Import base list strings.

Set Warnings "-register-all,-inexact-float".
Local Open Scope string_scope.
Local Open Scope list_scope.

(** ** Python values *)

(** What a configuration entry, a collaborator argument or a collaborator
    result can be.  [VObj] is an opaque object (a class, a factory, a network,
    a dataset handle, ...) of which the recipe only ever passes the reference
    on or calls it. *)
Inductive value : Type :=
| VNone
| VInt (n : Z)
| VStr (s : string)
| VTuple (xs : list value)
| VList (xs : list value)
| VDict (kvs : list (string * value))
| VObj (h : nat).

(** ** Strings: [str.endswith] and ['%s_args' % k] *)

(** [endswith s suffix] is Python's [s.endswith(suffix)]: some tail of [s] is
    [suffix]. *)
Fixpoint endswith (s suffix : string) : bool :=
  if String.eqb s suffix then true
  else match s with
       | EmptyString => false
       | String _ s' => endswith s' suffix
       end.

(** ['%s_args' % k] and ['%s_kwargs' % k]. *)
Definition args_key (k : string) : string := k +:+ "_args".
Definition kwargs_key (k : string) : string := k +:+ "_kwargs".

(** ** Dictionaries

    A Python [dict] keeps its keys in insertion order and
    [list(comps.keys())] observes that order, so a dictionary is an
    association list; [dict_set] overwrites in place or appends. *)
Definition dict : Type := list (string * value).

Fixpoint dict_get (k : string) (d : dict) : option value :=
  match d with
  | [] => None
  | (k', v) :: d' => if String.eqb k k' then Some v else dict_get k d'
  end.

(** [k in d] *)
Definition dict_contains (k : string) (d : dict) : bool :=
  match dict_get k d with Some _ => true | None => false end.

(** [d[k] = v] *)
Fixpoint dict_set (k : string) (v : value) (d : dict) : dict :=
  match d with
  | [] => [(k, v)]
  | (k', v') :: d' =>
      if String.eqb k k' then (k', v) :: d' else (k', v') :: dict_set k v d'
  end.

(** [list(d.keys())] *)
Definition dict_keys (d : dict) : list string := map fst d.

(** [dict(fixed, **mutable)]: a fresh copy of [fixed] into which the items of
    [mutable] are stored in order. *)
Definition dict_merge (fixed mutable : dict) : dict :=
  fold_left (fun acc kv => dict_set (fst kv) (snd kv) acc) mutable fixed.

(** [any(k in mutable for k in fixed.keys())] *)
Definition overlap (fixed mutable : dict) : bool :=
  existsb (fun k => dict_contains k mutable) (dict_keys fixed).

(** ** Metrics *)

(** A [d5.TestMetric] object: the wall-clock metric built by the recipe, or a
    metric object of the caller, of which only the class name is read. *)
Inductive TestMetric : Type :=
| WallclockTime (reruns avg_over : Z)
| Metric (class_name : string) (h : nat).

(** [type(metric).__name__] *)
Definition type_name (m : TestMetric) : string :=
  match m with
  | WallclockTime _ _ => "WallclockTime"
  | Metric c _ => c
  end.

(** An element of [metrics]: the metric and its acceptable value or [None]. *)
Definition MetricRequest : Type := TestMetric * option float.

(** ** Exceptions, collaborator calls, trace *)

Inductive exn : Type :=
| RuntimeError (msg : string)
| SyntaxError (msg : string)
| KeyError (k : string)
| IndexError
| Raised (e : value)        (* an exception raised inside a collaborator *)
| InvalidReference.         (* a reference to no object: not a Python state *)

Definition result (A : Type) : Type := exn + A.

(** What a collaborator answers: the exception object it raises, or what it
    returns. *)
Definition reply (A : Type) : Type := value + A.

Definition outcome {A : Type} (a : reply A) : result A :=
  match a with
  | inl e => inl (Raised e)
  | inr x => inr x
  end.

(** A call that leaves [run_recipe].  [args] and [kwargs] are the values
    spliced in with [*] and [**]. *)
Inductive call : Type :=
| dataset_loss (dataset : value)
| dataset_shape (dataset : value)
| create_model (model batch args : value) (shape : list Z) (kwargs : value)
| loss_op_call (loss_op : value) (inputs : list value) (name : string)
| add_operation (network op : value)
| load_dataset (dataset input_node : value) (label : string) (args kwargs : value)
| construct (factory : value) (positional : list value) (args kwargs : value)
| test_training (executor train_sampler validation_sampler optimizer
                 epochs batch output_node : value)
                (metrics : list TestMetric) (events : value).

(** What [print] is given. *)
Inductive output : Type :=
| FAIL (name : string) (result acceptable : float)
| PASSED.

Inductive event : Type :=
| Called (c : call)
| Printed (o : output).

Definition is_test_training (e : event) : bool :=
  match e with
  | Called (test_training _ _ _ _ _ _ _ _ _) => true
  | _ => false
  end.

Definition is_call (e : event) : bool :=
  match e with Called _ => true | Printed _ => false end.

(** ** Store and state

    The caller's [fixed] and [mutable] dictionaries, the caller's [metrics]
    list and the dictionary [comps] built by the recipe are objects of a
    store; a Python variable bound to one of them holds its position. *)
Record state : Type := mkState {
  dicts : list dict;
  lists : list (list MetricRequest);
  trace : list event
}.

(** ** The collaborators

    Everything [run_recipe] calls and does not define ([deep500.datasets],
    [deep500.networks], [d5.test_training], the factories stored in the
    configuration, the loss constructor, [network.add_operation]).  A
    collaborator sees everything that happened before (the trace), so it may
    be stateful, and it returns or raises.  What it returns has the type its
    interface promises: a dataset shape is a sequence of integers, the model
    factory gives a network with its input and output node, the dataset
    loader a training and a validation set, the training loop a sequence of
    binary64 measurements. *)
Record collaborators : Type := mkCollaborators {
  do_dataset_loss : list event -> value -> reply value;
  do_dataset_shape : list event -> value -> reply (list Z);
  do_create_model :
    list event -> value -> value -> value -> list Z -> value ->
    reply (value * value * value);
  do_loss_op : list event -> value -> list value -> string -> reply value;
  do_add_operation : list event -> value -> value -> reply unit;
  do_load_dataset :
    list event -> value -> value -> string -> value -> value ->
    reply (value * value);
  do_construct :
    list event -> value -> list value -> value -> value -> reply value;
  do_test_training :
    list event -> value -> value -> value -> value -> value -> value -> value ->
    list TestMetric -> value -> reply (list float)
}.

(** ** The state and exception monad *)
Definition M (A : Type) : Type := state -> result A * state.

Definition ret {A : Type} (a : A) : M A := fun s => (inr a, s).

Definition raise {A : Type} (e : exn) : M A := fun s => (inl e, s).

Definition bind {A B : Type} (m : M A) (f : A -> M B) : M B :=
  fun s => match m s with
           | (inl e, s') => (inl e, s')
           | (inr a, s') => f a s'
           end.

Notation "x <- m ;; k" := (bind m (fun x => k))
  (at level 100, m at next level, right associativity).
Notation "m ;; k" := (bind m (fun _ => k))
  (at level 100, right associativity).

(** [for x in xs: body(x)] *)
Fixpoint for_each {A : Type} (xs : list A) (body : A -> M unit) : M unit :=
  match xs with
  | [] => ret tt
  | x :: xs' => body x ;; for_each xs' body
  end.

(** Reading the dictionary a variable refers to. *)
Definition read_dict (r : nat) : M dict :=
  fun s => match dicts s !! r with
           | Some d => (inr d, s)
           | None => (inl InvalidReference, s)
           end.

(** A new dictionary object. *)
Definition new_dict (d : dict) : M nat :=
  fun s => (inr (length (dicts s)),
            mkState (dicts s ++ [d]) (lists s) (trace s)).

(** [k in r] *)
Definition contains (r : nat) (k : string) : M bool :=
  d <- read_dict r ;; ret (dict_contains k d).

(** [r[k]] *)
Definition getitem (r : nat) (k : string) : M value :=
  d <- read_dict r ;;
  match dict_get k d with
  | Some v => ret v
  | None => raise (KeyError k)
  end.

(** [r[k] = v] *)
Definition setitem (r : nat) (k : string) (v : value) : M unit :=
  fun s => match dicts s !! r with
           | Some d =>
               (inr tt, mkState (<[r := dict_set k v d]> (dicts s)) (lists s) (trace s))
           | None => (inl InvalidReference, s)
           end.

(** Reading the list a variable refers to. *)
Definition read_list (r : nat) : M (list MetricRequest) :=
  fun s => match lists s !! r with
           | Some l => (inr l, s)
           | None => (inl InvalidReference, s)
           end.

(** [r.append(x)] *)
Definition append (r : nat) (x : MetricRequest) : M unit :=
  fun s => match lists s !! r with
           | Some l =>
               (inr tt, mkState (dicts s) (<[r := l ++ [x]]> (lists s)) (trace s))
           | None => (inl InvalidReference, s)
           end.

Definition log (e : event) (s : state) : state :=
  mkState (dicts s) (lists s) (trace s ++ [e]).

(** A call into a collaborator: logged, then answered from what happened
    before it. *)
Definition invoke {A : Type} (c : call) (answer : list event -> reply A) : M A :=
  fun s => (outcome (answer (trace s)), log (Called c) s).

(** [print(...)] *)
Definition print (o : output) : M unit :=
  fun s => (inr tt, log (Printed o) s).

(** ** [run_recipe], block by block *)

Section Recipe.

Variable env : collaborators.

(** Lines 39-44: argument validation and the unified dictionary.  Returns
    the new dictionary [comps]. *)
Definition create_unified_dictionary (fixed mutable : nat) : M nat :=
  f <- read_dict fixed ;;
  m <- read_dict mutable ;;
  if overlap f m
  then raise (RuntimeError "Fixed and mutable components cannot overlap")
  else new_dict (dict_merge f m).

(** [k not in ['batch_size', 'epochs', 'events']] and not
    [(k.endswith('_args') or k.endswith('_kwargs'))] *)
Definition takes_arguments (k : string) : bool :=
  negb (existsb (String.eqb k) ["batch_size"; "epochs"; "events"])
  && negb (endswith k "_args" || endswith k "_kwargs").

(** Lines 48-54, the body of the loop for one key [k]. *)
Definition add_missing_for (comps : nat) (k : string) : M unit :=
  if takes_arguments k then
    has_args <- contains comps (args_key k) ;;
    (if has_args then ret tt else setitem comps (args_key k) (VTuple [])) ;;
    has_kwargs <- contains comps (kwargs_key k) ;;
    (if has_kwargs then ret tt else setitem comps (kwargs_key k) (VDict []))
  else ret tt.

(** Lines 46-54: add missing arguments and keyword arguments. *)
Definition add_missing_arguments (comps : nat) : M unit :=
  d <- read_dict comps ;;
  let old_keys := dict_keys d in
  for_each old_keys (add_missing_for comps).

(** [if key not in comps: raise SyntaxError(msg)] *)
Definition require (comps : nat) (key msg : string) : M unit :=
  present <- contains comps key ;;
  if present then ret tt else raise (SyntaxError msg).

(** Lines 57-63: obtain dataset metadata.  Returns
    [(loss_op, ds_classes, sample_shape)]. *)
Definition obtain_dataset_metadata (comps : nat) : M (value * Z * list Z) :=
  require comps "dataset" "Dataset must be specified in training recipe" ;;
  ds <- getitem comps "dataset" ;;
  loss_op <- invoke (dataset_loss ds) (fun h => do_dataset_loss env h ds) ;;
  ds' <- getitem comps "dataset" ;;
  ds_shape <- invoke (dataset_shape ds') (fun h => do_dataset_shape env h ds') ;;
  match ds_shape with
  | [] => raise IndexError
  | ds_classes :: sample_shape => ret (loss_op, ds_classes, sample_shape)
  end.

(** Lines 65-77: construct the network and add the loss function to it.
    Returns [(batch, network, input_node, output_node)]. *)
Definition construct_network (comps : nat) (loss_op : value) (sample_shape : list Z)
  : M (value * value * value * value) :=
  require comps "model" "Model must be specified in recipe" ;;
  require comps "batch_size" "Batch size must be specified in training recipe" ;;
  batch <- getitem comps "batch_size" ;;
  model <- getitem comps "model" ;;
  model_args <- getitem comps "model_args" ;;
  model_kwargs <- getitem comps "model_kwargs" ;;
  created <- invoke (create_model model batch model_args sample_shape model_kwargs)
               (fun h => do_create_model env h model batch model_args sample_shape
                           model_kwargs) ;;
  let '(network, input_node, output_node) := created in
  op <- invoke (loss_op_call loss_op [output_node; VStr "label"] "loss")
          (fun h => do_loss_op env h loss_op [output_node; VStr "label"] "loss") ;;
  invoke (add_operation network op) (fun h => do_add_operation env h network op) ;;
  ret (batch, network, input_node, output_node).

(** Lines 79-82: construct the dataset.  Returns
    [(train_set, validation_set)]. *)
Definition construct_dataset (comps : nat) (input_node : value) : M (value * value) :=
  ds <- getitem comps "dataset" ;;
  dataset_args <- getitem comps "dataset_args" ;;
  dataset_kwargs <- getitem comps "dataset_kwargs" ;;
  invoke (load_dataset ds input_node "label" dataset_args dataset_kwargs)
    (fun h => do_load_dataset env h ds input_node "label" dataset_args dataset_kwargs).

(** [comps[key](positional..., *comps[key_args], **comps[key_kwargs])] *)
Definition instantiate (comps : nat) (key : string) (positional : list value) : M value :=
  factory <- getitem comps key ;;
  args <- getitem comps (args_key key) ;;
  kwargs <- getitem comps (kwargs_key key) ;;
  invoke (construct factory positional args kwargs)
    (fun h => do_construct env h factory positional args kwargs).

(** Lines 85-90 and 92-97: one sampler, for [key] either ['train_sampler'] or
    ['validation_sampler'] and [set] the corresponding dataset. *)
Definition construct_sampler (comps : nat) (key : string) (set batch : value) : M value :=
  present <- contains comps key ;;
  if present then instantiate comps key [set; batch] else ret set.

(** Lines 99-103: construct the executor. *)
Definition construct_executor (comps : nat) (network : value) : M value :=
  require comps "executor" "Executor must be specified in recipe" ;;
  instantiate comps "executor" [network].

(** Lines 105-109: construct the optimizer. *)
Definition construct_optimizer (comps : nat) (executor : value) : M value :=
  require comps "optimizer" "Optimizer must be specified in training recipe" ;;
  instantiate comps "optimizer" [executor; VStr "loss"].

(** Lines 111-112: add total time to metrics. *)
Definition add_total_time (metrics : nat) : M unit :=
  append metrics (WallclockTime 0 1, None).

(** Lines 114-123: create trainer and run. *)
Definition create_trainer_and_run (comps metrics : nat)
    (executor train_sampler validation_sampler optimizer batch output_node : value)
  : M (list float) :=
  require comps "epochs" "Epochs must be specified in training recipe" ;;
  has_events <- contains comps "events" ;;
  (if has_events then ret tt else setitem comps "events" VNone) ;;
  epochs <- getitem comps "epochs" ;;
  ms <- read_list metrics ;;
  events <- getitem comps "events" ;;
  invoke (test_training executor train_sampler validation_sampler optimizer epochs
            batch output_node (map fst ms) events)
    (fun h => do_test_training env h executor train_sampler validation_sampler
                optimizer epochs batch output_node (map fst ms) events).

(** [acceptable is not None and result < acceptable] *)
Definition unacceptable (acceptable : option float) (result : float) : bool :=
  match acceptable with
  | Some a => PrimFloat.ltb result a
  | None => false
  end.

(** Lines 127-132: the loop over [zip(metrics, results)], [ok] threaded
    through. *)
Fixpoint verify_loop (pairs : list (MetricRequest * float)) (ok : bool) : M bool :=
  match pairs with
  | [] => ret ok
  | ((metric, acceptable), result) :: rest =>
      match acceptable with
      | Some a =>
          if PrimFloat.ltb result a
          then print (FAIL (type_name metric) result a) ;; verify_loop rest false
          else verify_loop rest ok
      | None => verify_loop rest ok
      end
  end.

(** Lines 125-138: verify results. *)
Definition verify_results (metrics : nat) (results : list float) : M bool :=
  ms <- read_list metrics ;;
  ok <- verify_loop (combine ms results) true ;;
  if negb ok then ret false else print PASSED ;; ret true.

(** [run_recipe(fixed, mutable, metrics)] *)
Definition run_recipe (fixed mutable metrics : nat) : M bool :=
  comps <- create_unified_dictionary fixed mutable ;;
  add_missing_arguments comps ;;
  meta <- obtain_dataset_metadata comps ;;
  let '(loss_op, ds_classes, sample_shape) := meta in
  net <- construct_network comps loss_op sample_shape ;;
  let '(batch, network, input_node, output_node) := net in
  sets <- construct_dataset comps input_node ;;
  let '(train_set, validation_set) := sets in
  train_sampler <- construct_sampler comps "train_sampler" train_set batch ;;
  validation_sampler <-
    construct_sampler comps "validation_sampler" validation_set batch ;;
  executor <- construct_executor comps network ;;
  optimizer <- construct_optimizer comps executor ;;
  add_total_time metrics ;;
  results <- create_trainer_and_run comps metrics executor train_sampler
               validation_sampler optimizer batch output_node ;;
  verify_results metrics results.

End Recipe.

(** ** Pure readings used to state the properties *)

(** What lines 49-54 do to the dictionary [d] of [comps] for one key. *)
Definition completed_for (k : string) (d : dict) : dict :=
  if takes_arguments k then
    let d1 := if dict_contains (args_key k) d then d
              else dict_set (args_key k) (VTuple []) d in
    if dict_contains (kwargs_key k) d1 then d1
    else dict_set (kwargs_key k) (VDict []) d1
  else d.

(** What the loop of lines 48-54 does to [d] over the keys [ks]. *)
Definition completed (ks : list string) (d : dict) : dict :=
  fold_left (fun acc k => completed_for k acc) ks d.

(** The required keys in the order [run_recipe] checks them, each with the
    message of the [SyntaxError] raised when it is absent. *)
Definition required : list (string * string) :=
  [ ("dataset", "Dataset must be specified in training recipe");
    ("model", "Model must be specified in recipe");
    ("batch_size", "Batch size must be specified in training recipe");
    ("executor", "Executor must be specified in recipe");
    ("optimizer", "Optimizer must be specified in training recipe");
    ("epochs", "Epochs must be specified in training recipe") ].

(** The first required key that [d] lacks, with its message. *)
Definition first_missing (d : dict) : option (string * string) :=
  find (fun km => negb (dict_contains (fst km) d)) required.

(** The state with the dictionary at [r] replaced. *)
Definition with_dict (r : nat) (d : dict) (s : state) : state :=
  mkState (<[r := d]> (dicts s)) (lists s) (trace s).

(** Is the pair [((metric, acceptable), result)] one the loop of lines
    127-132 prints a line for? *)
Definition failing (p : MetricRequest * float) : bool :=
  unacceptable (snd (fst p)) (snd p).

(** The line printed for a failing pair. *)
Definition fail_line (p : MetricRequest * float) : event :=
  Printed (FAIL (type_name (fst (fst p))) (snd p) (default (snd p) (snd (fst p)))).

(** The [FAIL] lines printed for the pairs of [zip(metrics, results)]. *)
Definition diagnostics (pairs : list (MetricRequest * float)) : list event :=
  map fail_line (List.filter failing pairs).

(** An entry that was not in [d] is absent, or the empty tuple under an
    [_args] key, or the empty dictionary under a [_kwargs] key. *)
Definition fresh_entry (j : string) (d' : dict) : Prop :=
  dict_get j d' = None
  \/ (exists x, j = args_key x /\ dict_get j d' = Some (VTuple []))
  \/ (exists x, j = kwargs_key x /\ dict_get j d' = Some (VDict [])).

(** ** A concrete world and concrete recipes, to run the model on *)

Module Scenario.

Definition M : value := VObj 1.
Definition E : value := VObj 2.
Definition D : value := VObj 3.
Definition O : value := VObj 4.
Definition Accuracy : TestMetric := Metric "Accuracy" 0.

(** Collaborators that always return; the training loop measures
    [accuracy] for every requested metric but the last and [3.5] seconds of
    wall-clock time. *)
Definition world (accuracy : float) : collaborators :=
  mkCollaborators
    (fun _ _ => inr (VObj 10))
    (fun _ _ => inr [10; 1; 28; 28]%Z)
    (fun _ _ _ _ _ _ => inr (VObj 11, VStr "input", VStr "output"))
    (fun _ _ _ _ => inr (VObj 12))
    (fun _ _ _ => inr tt)
    (fun _ _ _ _ _ _ => inr (VObj 13, VObj 14))
    (fun _ factory _ _ _ => inr (VTuple [VStr "made by"; factory]))
    (fun _ _ _ _ _ _ _ _ metrics _ =>
       inr (map (fun _ => accuracy) (removelast metrics) ++ [3.5%float])).


Definition fixed : dict := [("model", M); ("executor", E)].
Definition mutable : dict :=
  [("dataset", D); ("batch_size", VInt 32); ("epochs", VInt 5); ("optimizer", O)].

(** [fixed] at 0, [mutable] at 1, the caller's [metrics] list at 0. *)
Definition start (f m : dict) (metrics : list MetricRequest) : state :=
  mkState [f; m] [metrics] [].

End Scenario.

(** ** Readings of a run *)

(** Lines 56-138: what [run_recipe] does once [comps] is built and
    completed. *)
Definition resolve_and_run (env : collaborators) (comps metrics : nat) : M bool :=
  meta <- obtain_dataset_metadata env comps ;;
  let '(loss_op, ds_classes, sample_shape) := meta in
  net <- construct_network env comps loss_op sample_shape ;;
  let '(batch, network, input_node, output_node) := net in
  sets <- construct_dataset env comps input_node ;;
  let '(train_set, validation_set) := sets in
  train_sampler <- construct_sampler env comps "train_sampler" train_set batch ;;
  validation_sampler <-
    construct_sampler env comps "validation_sampler" validation_set batch ;;
  executor <- construct_executor env comps network ;;
  optimizer <- construct_optimizer env comps executor ;;
  add_total_time metrics ;;
  results <- create_trainer_and_run env comps metrics executor train_sampler
               validation_sampler optimizer batch output_node ;;
  verify_results metrics results.

(** The exception [e] comes out of a collaborator called before the training
    loop (or out of subscripting the empty shape one of them returned). *)
Inductive raised_by (env : collaborators) : exn -> Prop :=
| by_dataset_loss h ds e :
    do_dataset_loss env h ds = inl e -> raised_by env (Raised e)
| by_dataset_shape h ds e :
    do_dataset_shape env h ds = inl e -> raised_by env (Raised e)
| by_empty_shape h ds :
    do_dataset_shape env h ds = inr [] -> raised_by env IndexError
| by_create_model h model batch args shape kwargs e :
    do_create_model env h model batch args shape kwargs = inl e -> raised_by env (Raised e)
| by_loss_op h loss_op inputs name e :
    do_loss_op env h loss_op inputs name = inl e -> raised_by env (Raised e)
| by_add_operation h network op e :
    do_add_operation env h network op = inl e -> raised_by env (Raised e)
| by_load_dataset h ds input_node label args kwargs e :
    do_load_dataset env h ds input_node label args kwargs = inl e -> raised_by env (Raised e)
| by_construct h factory positional args kwargs e :
    do_construct env h factory positional args kwargs = inl e -> raised_by env (Raised e).

(** From [s] to [s'] the store is untouched and the training loop was not
    called. *)
Definition quiet (s s' : state) : Prop :=
  dicts s' = dicts s /\ lists s' = lists s
  /\ exists t, trace s' = trace s ++ t /\ existsb is_test_training t = false.

(** Every key of [d] that takes arguments has both companions in [d]. *)
Definition complete (d : dict) : Prop :=
  forall k, dict_contains k d = true -> takes_arguments k = true ->
            dict_contains (args_key k) d = true
            /\ dict_contains (kwargs_key k) d = true.

(** The state with the list at [r] replaced. *)
Definition with_list (r : nat) (l : list MetricRequest) (s : state) : state :=
  mkState (dicts s) (<[r := l]> (lists s)) (trace s).

(** Lines 118-119 on the dictionary of [comps]. *)
Definition events_defaulted (d : dict) : dict :=
  if dict_contains "events" d then d else dict_set "events" VNone d.

(** Does every pair of [zip(metrics, results)] pass? *)
Definition all_acceptable (pairs : list (MetricRequest * float)) : bool :=
  forallb (fun p => negb (failing p)) pairs.

(** The entry appended at line 112. *)
Definition wallclock : MetricRequest := (WallclockTime 0 1, None).

(** The state after the events [es]. *)
Definition logged (es : list event) (s : state) : state :=
  mkState (dicts s) (lists s) (trace s ++ es).

(** What lines 125-138 print for [zip(metrics, results)]. *)
Definition report (pairs : list (MetricRequest * float)) : list event :=
  diagnostics pairs ++ (if all_acceptable pairs then [Printed PASSED] else []).

(** The dictionary [comps] holds after lines 39-54. *)
Definition normalized (fixed mutable : dict) : dict :=
  completed (dict_keys (dict_merge fixed mutable)) (dict_merge fixed mutable).

(** The state with one more dictionary, [d], in the store. *)
Definition built (d : dict) (s : state) : state :=
  mkState (dicts s ++ [d]) (lists s) (trace s).

(** ** Tactics for following a run *)

(** The run [E] has reached its end: outcome and final state are known. *)
Ltac leaf :=
  match goal with
  | E : (_, _) = (_, _) |- _ => injection E as <- <-
  end.

(** In the run [E], a read of the live dictionary [L] by the equation [lem]
    finds what [G] says is there. *)
Ltac read_in lem E L G :=
  erewrite lem in E by exact L; rewrite G in E; cbn beta iota in E.


(** From [s] to [s'] the store is untouched and exactly the events [evs]
    happened. *)
Definition ran (s s' : state) (evs : list event) : Prop :=
  dicts s' = dicts s /\ lists s' = lists s /\ trace s' = trace s ++ evs.

(** * Properties *)

(** ** Strings *)

Lemma append_nil_l (s : string) : "" +:+ s = s.
Proof. reflexivity. Qed.

Lemma append_cons (c : Ascii.ascii) (s t : string) :
  String c s +:+ t = String c (s +:+ t).
Proof. reflexivity. Qed.

Lemma length_append (s1 s2 : string) :
  String.length (s1 +:+ s2) = String.length s1 + String.length s2.
Proof.
  induction s1 as [|c s1 IH]; [reflexivity|].
  rewrite append_cons. simpl. now rewrite IH.
Qed.

(** A key built with ['%s_args'] is never one built with ['%s_kwargs']: the
    fifth character from the end is ['_'] in the first and ['w'] in the
    second. *)
Lemma args_key_neq_kwargs_key (k x : string) : args_key k <> kwargs_key x.
Proof.
  unfold args_key, kwargs_key. intros E.
  assert (L : String.length k = String.length x + 2).
  { apply (f_equal String.length) in E. rewrite !length_append in E.
    simpl in E. lia. }
  pose proof (append_correct2 k "_args" 0) as A.
  rewrite E, L in A. change (0 + (String.length x + 2)) with (String.length x + 2) in A.
  rewrite (Nat.add_comm (String.length x) 2) in A.
  rewrite <- (append_correct2 x "_kwargs" 2) in A. discriminate A.
Qed.

Lemma append_suffix_inj (k x suffix : string) :
  k +:+ suffix = x +:+ suffix -> k = x.
Proof.
  revert x. induction k as [|c k IH]; intros [|c' x] E.
  - reflexivity.
  - apply (f_equal String.length) in E.
    rewrite !length_append in E. simpl in E. lia.
  - apply (f_equal String.length) in E.
    rewrite !length_append in E. simpl in E. lia.
  - rewrite !append_cons in E. injection E as -> E. f_equal. now apply IH.
Qed.

(** [endswith] is Python's [str.endswith]. *)
Lemma endswith_spec (s suffix : string) :
  endswith s suffix = true <-> exists p, s = p +:+ suffix.
Proof.
  induction s as [|c s IH].
  - destruct suffix as [|c' suffix]; simpl.
    + split; [now exists "" | now intros].
    + split; [discriminate|].
      intros [[|c p] E]; rewrite ?append_nil_l, ?append_cons in E; discriminate.
  - change (endswith (String c s) suffix)
      with (if String.eqb (String c s) suffix then true else endswith s suffix).
    destruct (String.eqb_spec (String c s) suffix) as [<-|N].
    + split; [now exists "" | now intros].
    + rewrite IH. split.
      * intros [p ->]. exists (String c p). reflexivity.
      * intros [[|c' p] E]; rewrite ?append_nil_l, ?append_cons in E; [congruence|].
        injection E as _ ->. now exists p.
Qed.

(** ** Dictionaries *)

Lemma dict_get_set_eq (k : string) (v : value) (d : dict) :
  dict_get k (dict_set k v d) = Some v.
Proof.
  induction d as [|[k' v'] d IH]; simpl.
  - now rewrite String.eqb_refl.
  - destruct (String.eqb k k') eqn:E; simpl; rewrite E; [reflexivity | exact IH].
Qed.

Lemma dict_get_set_ne (k j : string) (v : value) (d : dict) :
  j <> k -> dict_get j (dict_set k v d) = dict_get j d.
Proof.
  intros N. induction d as [|[k' v'] d IH]; simpl.
  - destruct (String.eqb_spec j k); [contradiction | reflexivity].
  - destruct (String.eqb_spec k k') as [<-|N']; simpl.
    + destruct (String.eqb_spec j k); [contradiction | reflexivity].
    + now rewrite IH.
Qed.

Lemma dict_contains_set (k j : string) (v : value) (d : dict) :
  dict_contains j (dict_set k v d) = String.eqb j k || dict_contains j d.
Proof.
  unfold dict_contains. destruct (String.eqb_spec j k) as [->|N].
  - now rewrite dict_get_set_eq.
  - now rewrite dict_get_set_ne.
Qed.

Lemma dict_contains_keys (k : string) (d : dict) :
  dict_contains k d = true <-> In k (dict_keys d).
Proof.
  unfold dict_contains. induction d as [|[k' v'] d IH]; simpl.
  - split; [discriminate | contradiction].
  - destruct (String.eqb_spec k k') as [->|N].
    + split; auto.
    + rewrite IH. split; [auto | intros [E|I]; [congruence | exact I]].
Qed.

Lemma dict_contains_merge (k : string) (fixed mutable : dict) :
  dict_contains k (dict_merge fixed mutable)
  = dict_contains k fixed || dict_contains k mutable.
Proof.
  unfold dict_merge. revert fixed.
  induction mutable as [|[k' v'] m IH]; intros fixed; simpl.
  - now rewrite orb_false_r.
  - rewrite IH, dict_contains_set. unfold dict_contains at 4. simpl.
    destruct (String.eqb k k'); simpl.
    + now rewrite orb_true_r.
    + reflexivity.
Qed.

Lemma overlap_true (fixed mutable : dict) :
  overlap fixed mutable = true
  <-> exists k, dict_contains k fixed = true /\ dict_contains k mutable = true.
Proof.
  unfold overlap. rewrite existsb_exists. split.
  - intros (k & I & C). exists k. split; [now apply dict_contains_keys | exact C].
  - intros (k & F & C). exists k. split; [now apply dict_contains_keys | exact C].
Qed.

Lemma dict_get_merge_absent (j : string) (fixed mutable : dict) :
  dict_contains j mutable = false ->
  dict_get j (dict_merge fixed mutable) = dict_get j fixed.
Proof.
  unfold dict_merge. revert fixed.
  induction mutable as [|[k v] m IH]; intros fixed A; simpl; [reflexivity|].
  unfold dict_contains in A. simpl in A.
  destruct (String.eqb_spec j k) as [->|N]; [discriminate|].
  rewrite IH by exact A. now apply dict_get_set_ne.
Qed.

Lemma dict_get_merge_mutable (j : string) (v : value) (fixed mutable : dict) :
  List.NoDup (dict_keys mutable) ->
  dict_get j mutable = Some v ->
  dict_get j (dict_merge fixed mutable) = Some v.
Proof.
  unfold dict_merge. revert fixed.
  induction mutable as [|[k w] m IH]; intros fixed ND G; simpl in *; [discriminate|].
  apply List.NoDup_cons_iff in ND as [NI ND].
  destruct (String.eqb_spec j k) as [->|N].
  - injection G as ->.
    change (dict_get k (dict_merge (dict_set k v fixed) m) = Some v).
    rewrite dict_get_merge_absent; [apply dict_get_set_eq|].
    destruct (dict_contains k m) eqn:C; [|reflexivity].
    apply dict_contains_keys in C. contradiction.
  - now apply IH.
Qed.

(** ** The store operations on a live dictionary *)

Section Store.

Variables (s : state) (r : nat) (d : dict).
Hypothesis live : dicts s !! r = Some d.

Lemma read_dict_live : read_dict r s = (inr d, s).
Proof using live. unfold read_dict. now rewrite live. Qed.

Lemma contains_live (k : string) : contains r k s = (inr (dict_contains k d), s).
Proof using live. unfold contains, bind. now rewrite read_dict_live. Qed.

Lemma getitem_live (k : string) :
  getitem r k s = match dict_get k d with
                  | Some v => (inr v, s)
                  | None => (inl (KeyError k), s)
                  end.
Proof using live.
  unfold getitem, bind. rewrite read_dict_live. now destruct (dict_get k d).
Qed.

Lemma setitem_live (k : string) (v : value) :
  setitem r k v s = (inr tt, with_dict r (dict_set k v d) s).
Proof using live. unfold setitem. now rewrite live. Qed.

Lemma with_dict_live (d' : dict) : dicts (with_dict r d' s) !! r = Some d'.
Proof using live.
  simpl. apply list_lookup_insert_eq. now apply lookup_lt_Some with d.
Qed.

Lemma with_dict_same : with_dict r d s = s.
Proof using live.
  unfold with_dict. rewrite list_insert_id by exact live. now destruct s.
Qed.

Lemma with_dict_twice (d1 d2 : dict) :
  with_dict r d2 (with_dict r d1 s) = with_dict r d2 s.
Proof. unfold with_dict. simpl. now rewrite list_insert_insert_eq. Qed.

Lemma require_live (key msg : string) :
  require r key msg s
  = if dict_contains key d then (inr tt, s) else (inl (SyntaxError msg), s).
Proof using live.
  unfold require, bind. rewrite contains_live. now destruct (dict_contains key d).
Qed.

End Store.

(** ** Lines 46-54: the completion loop *)

Lemma add_missing_for_live (s : state) (r : nat) (d : dict) (k : string) :
  dicts s !! r = Some d ->
  add_missing_for r k s = (inr tt, with_dict r (completed_for k d) s).
Proof.
  intros L. unfold add_missing_for, completed_for.
  destruct (takes_arguments k); [|unfold ret; now rewrite (with_dict_same s r d)].
  unfold bind. rewrite (contains_live s r d L).
  destruct (dict_contains (args_key k) d) eqn:A.
  - unfold ret. rewrite (contains_live s r d L).
    destruct (dict_contains (kwargs_key k) d) eqn:K.
    + now rewrite (with_dict_same s r d).
    + now rewrite (setitem_live s r d L).
  - rewrite (setitem_live s r d L).
    set (d1 := dict_set (args_key k) (VTuple []) d).
    assert (L1 : dicts (with_dict r d1 s) !! r = Some d1)
      by now apply with_dict_live with d.
    rewrite (contains_live _ r d1 L1).
    destruct (dict_contains (kwargs_key k) d1) eqn:K.
    + reflexivity.
    + rewrite (setitem_live _ r d1 L1). now rewrite with_dict_twice.
Qed.

Lemma for_each_add_missing (ks : list string) (s : state) (r : nat) (d : dict) :
  dicts s !! r = Some d ->
  for_each ks (add_missing_for r) s = (inr tt, with_dict r (completed ks d) s).
Proof.
  revert s d. induction ks as [|k ks IH]; intros s d L; simpl.
  - unfold ret. now rewrite (with_dict_same s r d).
  - unfold bind. rewrite (add_missing_for_live s r d k L).
    rewrite (IH _ (completed_for k d)) by now apply with_dict_live with d.
    now rewrite with_dict_twice.
Qed.

Lemma add_missing_arguments_live (s : state) (r : nat) (d : dict) :
  dicts s !! r = Some d ->
  add_missing_arguments r s = (inr tt, with_dict r (completed (dict_keys d) d) s).
Proof.
  intros L. unfold add_missing_arguments, bind.
  rewrite (read_dict_live s r d L). now apply for_each_add_missing.
Qed.

(** The loop only adds entries: whatever is in [d] stays as it is. *)
Lemma completed_for_keeps (k j : string) (v : value) (d : dict) :
  dict_get j d = Some v -> dict_get j (completed_for k d) = Some v.
Proof.
  intros G. unfold completed_for. destruct (takes_arguments k); [|exact G].
  set (d1 := if dict_contains (args_key k) d then d
             else dict_set (args_key k) (VTuple []) d).
  assert (G1 : dict_get j d1 = Some v).
  { unfold d1. destruct (dict_contains (args_key k) d) eqn:A; [exact G|].
    rewrite dict_get_set_ne; [exact G|]. intros ->.
    unfold dict_contains in A. now rewrite G in A. }
  destruct (dict_contains (kwargs_key k) d1) eqn:K; [exact G1|].
  rewrite dict_get_set_ne; [exact G1|]. intros ->.
  unfold dict_contains in K. now rewrite G1 in K.
Qed.

Lemma completed_keeps (ks : list string) (j : string) (v : value) (d : dict) :
  dict_get j d = Some v -> dict_get j (completed ks d) = Some v.
Proof.
  revert d. induction ks as [|k ks IH]; intros d G; simpl; [exact G|].
  apply IH. now apply completed_for_keeps.
Qed.

(** A key the loop body handles has both companions afterwards. *)
Lemma completed_for_adds (k : string) (d : dict) :
  takes_arguments k = true ->
  dict_contains (args_key k) (completed_for k d) = true
  /\ dict_contains (kwargs_key k) (completed_for k d) = true.
Proof.
  intros T. unfold completed_for. rewrite T.
  set (d1 := if dict_contains (args_key k) d then d
             else dict_set (args_key k) (VTuple []) d).
  assert (A1 : dict_contains (args_key k) d1 = true).
  { unfold d1. destruct (dict_contains (args_key k) d) eqn:A; [exact A|].
    rewrite dict_contains_set. now rewrite String.eqb_refl. }
  destruct (dict_contains (kwargs_key k) d1) eqn:K; [now split|].
  rewrite !dict_contains_set, A1, String.eqb_refl. split; [apply orb_true_r | reflexivity].
Qed.

Lemma completed_for_fresh (k j : string) (d : dict) :
  fresh_entry j d -> fresh_entry j (completed_for k d).
Proof.
  intros F. destruct F as [N|[(x & -> & G)|(x & -> & G)]].
  - unfold completed_for. destruct (takes_arguments k); [|now left].
    set (d1 := if dict_contains (args_key k) d then d
               else dict_set (args_key k) (VTuple []) d).
    assert (F1 : fresh_entry j d1).
    { unfold d1. destruct (dict_contains (args_key k) d); [now left|].
      destruct (String.eqb_spec j (args_key k)) as [->|NE].
      - right; left. exists k. split; [reflexivity | apply dict_get_set_eq].
      - left. now rewrite dict_get_set_ne. }
    destruct (dict_contains (kwargs_key k) d1) eqn:K; [exact F1|].
    destruct (String.eqb_spec j (kwargs_key k)) as [->|NE].
    + right; right. exists k. split; [reflexivity | apply dict_get_set_eq].
    + destruct F1 as [N1|[(x & -> & G)|(x & -> & G)]].
      * left. now rewrite dict_get_set_ne.
      * right; left. exists x. split; [reflexivity|]. now rewrite dict_get_set_ne.
      * right; right. exists x. split; [reflexivity|]. now rewrite dict_get_set_ne.
  - right; left. exists x. split; [reflexivity | now apply completed_for_keeps].
  - right; right. exists x. split; [reflexivity | now apply completed_for_keeps].
Qed.

Lemma completed_fresh (ks : list string) (j : string) (d : dict) :
  fresh_entry j d -> fresh_entry j (completed ks d).
Proof.
  revert d. induction ks as [|k ks IH]; intros d F; simpl; [exact F|].
  apply IH. now apply completed_for_fresh.
Qed.

Lemma completed_adds (ks : list string) (k : string) (d : dict) :
  In k ks -> takes_arguments k = true ->
  dict_contains (args_key k) (completed ks d) = true
  /\ dict_contains (kwargs_key k) (completed ks d) = true.
Proof.
  revert d. induction ks as [|k' ks IH]; intros d I T; simpl; [contradiction|].
  destruct (in_dec string_dec k ks) as [I'|NI'].
  - now apply IH.
  - destruct I as [->|I]; [|contradiction].
    destruct (completed_for_adds k d T) as [A K].
    unfold dict_contains in *.
    destruct (dict_get (args_key k) (completed_for k d)) as [va|] eqn:GA; [|discriminate].
    destruct (dict_get (kwargs_key k) (completed_for k d)) as [vk|] eqn:GK; [|discriminate].
    now rewrite (completed_keeps ks _ va _ GA), (completed_keeps ks _ vk _ GK).
Qed.

(** ** Merging (lines 39-44) *)

(** C1.  When [fixed] and [mutable] share a key, [run_recipe] raises the
    overlap error and leaves the state as it found it: nothing was called,
    nothing was printed, nothing was written.  When they share none, lines
    39-44 return a new dictionary holding every key of both, again without
    any call. *)
Theorem overlap_raises_before_any_call
    (env : collaborators) (s : state) (fixed mutable metrics : nat) (f m : dict) :
  dicts s !! fixed = Some f ->
  dicts s !! mutable = Some m ->
  ((exists k, dict_contains k f = true /\ dict_contains k m = true) ->
   run_recipe env fixed mutable metrics s
   = (inl (RuntimeError "Fixed and mutable components cannot overlap"), s))
  /\ ((forall k, dict_contains k f = true -> dict_contains k m = false) ->
      exists comps s' merged,
        create_unified_dictionary fixed mutable s = (inr comps, s')
        /\ dicts s' !! comps = Some merged
        /\ trace s' = trace s
        /\ forall k, dict_contains k f = true \/ dict_contains k m = true ->
                     dict_contains k merged = true).
Proof.
  intros Lf Lm. split.
  - intros Hk. apply overlap_true in Hk.
    unfold run_recipe, create_unified_dictionary, bind.
    rewrite (read_dict_live s fixed f Lf), (read_dict_live s mutable m Lm), Hk.
    reflexivity.
  - intros Hd.
    assert (Ho : overlap f m = false).
    { destruct (overlap f m) eqn:Ho; [|reflexivity].
      apply overlap_true in Ho as (k & Hf & Hm). rewrite (Hd k Hf) in Hm. discriminate. }
    exists (length (dicts s)),
           (mkState (dicts s ++ [dict_merge f m]) (lists s) (trace s)),
           (dict_merge f m).
    repeat split.
    + unfold create_unified_dictionary, bind.
      now rewrite (read_dict_live s fixed f Lf), (read_dict_live s mutable m Lm), Ho.
    + simpl. rewrite lookup_app_r by reflexivity. now rewrite Nat.sub_diag.
    + intros k Hk. rewrite dict_contains_merge.
      destruct Hk as [-> | ->]; [reflexivity | apply orb_true_r].
Qed.

Lemma overlap_raises_before_any_call_witness :
  run_recipe (Scenario.world 0.5) 0 1 0
    (Scenario.start [("model", Scenario.M)] [("model", VObj 5)] [])
  = (inl (RuntimeError "Fixed and mutable components cannot overlap"),
     Scenario.start [("model", Scenario.M)] [("model", VObj 5)] []).
Proof.
  apply (proj1 (overlap_raises_before_any_call (Scenario.world 0.5)
                  (Scenario.start [("model", Scenario.M)] [("model", VObj 5)] [])
                  0 1 0 [("model", Scenario.M)] [("model", VObj 5)]
                  eq_refl eq_refl)).
  exists "model". split; reflexivity.
Defined.

(** ** Completion with [_args] and [_kwargs] (lines 46-54) *)

(** C2.  For disjoint [fixed] and [mutable], merging and then completing
    succeeds, and in the completed dictionary [d']:
    every entry the caller supplied, in [fixed] or in [mutable], is there with
    the caller's value; and for every key [k] of [fixed] or [mutable] that is
    not [batch_size], [epochs] or [events] and does not end in [_args] or
    [_kwargs], both [k_args] and [k_kwargs] are present, [k_args] being the
    empty tuple and [k_kwargs] the empty dictionary when the caller supplied
    none. *)
Theorem completion_adds_defaults_keeps_supplied
    (s : state) (fixed mutable : nat) (f m : dict) :
  dicts s !! fixed = Some f ->
  dicts s !! mutable = Some m ->
  List.NoDup (dict_keys m) ->
  overlap f m = false ->
  exists comps s1 s2 d',
    create_unified_dictionary fixed mutable s = (inr comps, s1)
    /\ add_missing_arguments comps s1 = (inr tt, s2)
    /\ dicts s2 !! comps = Some d'
    /\ (forall j v, dict_get j f = Some v \/ dict_get j m = Some v ->
                    dict_get j d' = Some v)
    /\ (forall k, dict_contains k f = true \/ dict_contains k m = true ->
                  takes_arguments k = true ->
          dict_contains (args_key k) d' = true
          /\ dict_contains (kwargs_key k) d' = true
          /\ (dict_contains (args_key k) f = false ->
              dict_contains (args_key k) m = false ->
              dict_get (args_key k) d' = Some (VTuple []))
          /\ (dict_contains (kwargs_key k) f = false ->
              dict_contains (kwargs_key k) m = false ->
              dict_get (kwargs_key k) d' = Some (VDict []))).
Proof.
  intros Lf Lm ND Ho.
  set (d := dict_merge f m).
  set (s1 := mkState (dicts s ++ [d]) (lists s) (trace s)).
  assert (L1 : dicts s1 !! length (dicts s) = Some d).
  { simpl. rewrite lookup_app_r by reflexivity. now rewrite Nat.sub_diag. }
  exists (length (dicts s)), s1,
         (with_dict (length (dicts s)) (completed (dict_keys d) d) s1),
         (completed (dict_keys d) d).
  split; [|split; [|split; [|split]]].
  - unfold create_unified_dictionary, bind.
    now rewrite (read_dict_live s fixed f Lf), (read_dict_live s mutable m Lm), Ho.
  - now apply add_missing_arguments_live.
  - now apply with_dict_live with d.
  - intros j v G. apply completed_keeps. unfold d. destruct G as [G|G].
    + rewrite dict_get_merge_absent; [exact G|].
      destruct (dict_contains j m) eqn:C; [|reflexivity].
      assert (O : overlap f m = true).
      { apply overlap_true. exists j. split; [|exact C].
        unfold dict_contains. now rewrite G. }
      congruence.
    + now apply dict_get_merge_mutable.
  - intros k Hk T.
    assert (I : In k (dict_keys d)).
    { apply dict_contains_keys. unfold d. rewrite dict_contains_merge.
      destruct Hk as [-> | ->]; [reflexivity | apply orb_true_r]. }
    destruct (completed_adds (dict_keys d) k d I T) as [A K].
    split; [exact A|]. split; [exact K|]. split.
    + intros Nf Nm.
      assert (N : dict_get (args_key k) d = None).
      { pose proof (dict_contains_merge (args_key k) f m) as C.
        rewrite Nf, Nm in C. fold d in C. unfold dict_contains in C.
        now destruct (dict_get (args_key k) d). }
      destruct (completed_fresh (dict_keys d) (args_key k) d (or_introl N))
        as [G|[(x & _ & G)|(x & E & _)]].
      * unfold dict_contains in A. now rewrite G in A.
      * exact G.
      * now apply args_key_neq_kwargs_key in E.
    + intros Nf Nm.
      assert (N : dict_get (kwargs_key k) d = None).
      { pose proof (dict_contains_merge (kwargs_key k) f m) as C.
        rewrite Nf, Nm in C. fold d in C. unfold dict_contains in C.
        now destruct (dict_get (kwargs_key k) d). }
      destruct (completed_fresh (dict_keys d) (kwargs_key k) d (or_introl N))
        as [G|[(x & E & _)|(x & _ & G)]].
      * unfold dict_contains in K. now rewrite G in K.
      * symmetry in E. now apply args_key_neq_kwargs_key in E.
      * exact G.
Qed.

Lemma completion_adds_defaults_keeps_supplied_witness :
  exists d',
    dict_get "model_args" d' = Some (VTuple [])
    /\ dict_get "model_kwargs" d' = Some (VDict [("depth", VInt 18)]).
Proof.
  destruct (completion_adds_defaults_keeps_supplied
              (Scenario.start
                 [("model", Scenario.M); ("model_kwargs", VDict [("depth", VInt 18)])]
                 [("dataset", Scenario.D)] [])
              0 1
              [("model", Scenario.M); ("model_kwargs", VDict [("depth", VInt 18)])]
              [("dataset", Scenario.D)]
              eq_refl eq_refl)
    as (comps & s1 & s2 & d' & _ & _ & _ & Keep & Add).
  - repeat constructor. simpl. tauto.
  - reflexivity.
  - exists d'. split.
    + apply (Add "model"); [now left | reflexivity | reflexivity | reflexivity].
    + apply Keep. now left.
Defined.

(** ** Steps that only read [comps] and call collaborators *)

Lemma quiet_refl (s : state) : quiet s s.
Proof.
  repeat split. exists []. split; [now rewrite app_nil_r | reflexivity].
Qed.

Lemma quiet_trans (s1 s2 s3 : state) : quiet s1 s2 -> quiet s2 s3 -> quiet s1 s3.
Proof.
  intros (D1 & L1 & t1 & T1 & Q1) (D2 & L2 & t2 & T2 & Q2).
  split; [congruence|]. split; [congruence|].
  exists (t1 ++ t2). split.
  - now rewrite T2, T1, app_assoc.
  - rewrite existsb_app, Q1, Q2. reflexivity.
Qed.

Lemma quiet_log (s : state) (c : call) :
  is_test_training (Called c) = false -> quiet s (log (Called c) s).
Proof.
  intros Q. repeat split. exists [Called c]. split; [reflexivity|].
  unfold existsb. now rewrite Q.
Qed.

Lemma contains_get (k : string) (d : dict) :
  dict_contains k d = true -> exists v, dict_get k d = Some v.
Proof.
  unfold dict_contains. destruct (dict_get k d) as [v|]; [now exists v | discriminate].
Qed.

Lemma quiet_log_after (s s1 : state) (c : call) :
  quiet s s1 -> is_test_training (Called c) = false -> quiet s (log (Called c) s1).
Proof. intros Q N. eapply quiet_trans; [exact Q | now apply quiet_log]. Qed.

Create HintDb recipe.
#[local] Hint Resolve quiet_refl quiet_log_after : recipe.
#[local] Hint Extern 1 (is_test_training _ = false) => reflexivity : recipe.

Lemma obtain_dataset_metadata_spec
    (env : collaborators) (s : state) (comps : nat) (d : dict)
    (r : result (value * Z * list Z)) (s' : state) :
  dicts s !! comps = Some d ->
  obtain_dataset_metadata env comps s = (r, s') ->
  quiet s s'
  /\ match r with
     | inl e =>
         (dict_contains "dataset" d = false
          /\ e = SyntaxError "Dataset must be specified in training recipe")
         \/ (dict_contains "dataset" d = true /\ raised_by env e)
     | inr _ => dict_contains "dataset" d = true
     end.
Proof.
  intros L E. unfold obtain_dataset_metadata, bind in E.
  erewrite require_live in E by exact L.
  destruct (dict_contains "dataset" d) eqn:C; [|leaf; split; [auto with recipe | now left]].
  destruct (contains_get _ _ C) as [ds G].
  erewrite getitem_live in E by exact L. rewrite G in E.
  unfold invoke at 1 in E; unfold outcome at 1 in E.
  destruct (do_dataset_loss env (trace s) ds) as [e|loss_op] eqn:R1.
  { leaf. split; [auto with recipe|]. right. split; [reflexivity|]. eapply by_dataset_loss, R1. }
  erewrite getitem_live in E by exact L. rewrite G in E.
  unfold invoke, outcome in E.
  destruct (do_dataset_shape env _ ds) as [e|[|c sh]] eqn:R2.
  - leaf. split; [auto with recipe|]. right. split; [reflexivity|]. eapply by_dataset_shape, R2.
  - unfold raise in E. leaf. split; [auto with recipe|]. right. split; [reflexivity|].
    eapply by_empty_shape, R2.
  - unfold ret in E. leaf. split; [auto with recipe | reflexivity].
Qed.

Lemma complete_companions (d : dict) (k : string) :
  complete d -> dict_contains k d = true -> takes_arguments k = true ->
  exists a kw, dict_get (args_key k) d = Some a /\ dict_get (kwargs_key k) d = Some kw.
Proof.
  intros Hc C T. destruct (Hc k C T) as [A K].
  destruct (contains_get _ _ A) as [a Ga], (contains_get _ _ K) as [kw Gk].
  now exists a, kw.
Qed.

Lemma instantiate_spec
    (env : collaborators) (s : state) (comps : nat) (d : dict)
    (key : string) (positional : list value) (r : result value) (s' : state) :
  dicts s !! comps = Some d -> complete d ->
  dict_contains key d = true -> takes_arguments key = true ->
  instantiate env comps key positional s = (r, s') ->
  quiet s s' /\ match r with inl e => raised_by env e | inr _ => True end.
Proof.
  intros L Hc C T E. unfold instantiate, bind in E.
  destruct (contains_get _ _ C) as [factory G].
  destruct (complete_companions d key Hc C T) as (a & kw & Ga & Gk).
  read_in getitem_live E L G. read_in getitem_live E L Ga. read_in getitem_live E L Gk. unfold invoke, outcome in E.
  destruct (do_construct env (trace s) factory positional a kw) as [e|v] eqn:R;
    leaf; (split; [auto with recipe|]); [eapply by_construct, R | exact I].
Qed.

Lemma construct_network_spec
    (env : collaborators) (s : state) (comps : nat) (d : dict)
    (loss_op : value) (sample_shape : list Z)
    (r : result (value * value * value * value)) (s' : state) :
  dicts s !! comps = Some d -> complete d ->
  construct_network env comps loss_op sample_shape s = (r, s') ->
  quiet s s'
  /\ match r with
     | inl e =>
         (dict_contains "model" d = false
          /\ e = SyntaxError "Model must be specified in recipe")
         \/ (dict_contains "model" d = true /\ dict_contains "batch_size" d = false
             /\ e = SyntaxError "Batch size must be specified in training recipe")
         \/ (dict_contains "model" d = true /\ dict_contains "batch_size" d = true
             /\ raised_by env e)
     | inr _ => dict_contains "model" d = true /\ dict_contains "batch_size" d = true
     end.
Proof.
  intros L Hc E. unfold construct_network, bind in E.
  erewrite require_live in E by exact L.
  destruct (dict_contains "model" d) eqn:Cm;
    [|leaf; split; [auto with recipe | now left]].
  erewrite require_live in E by exact L.
  destruct (dict_contains "batch_size" d) eqn:Cb;
    [|leaf; split; [auto with recipe | right; left; now repeat split]].
  destruct (contains_get _ _ Cm) as [model Gm], (contains_get _ _ Cb) as [batch Gb].
  destruct (complete_companions d "model" Hc Cm eq_refl) as (a & kw & Ga & Gk).
  change (args_key "model") with "model_args" in Ga.
  change (kwargs_key "model") with "model_kwargs" in Gk.
  read_in getitem_live E L Gb. read_in getitem_live E L Gm. read_in getitem_live E L Ga. read_in getitem_live E L Gk.
  unfold invoke at 1 in E; unfold outcome at 1 in E.
  destruct (do_create_model env (trace s) model batch a sample_shape kw)
    as [e|[[network input_node] output_node]] eqn:R1.
  { leaf. split; [auto with recipe|]. right; right. repeat split. eapply by_create_model, R1. }
  unfold invoke at 1 in E; unfold outcome at 1 in E.
  destruct (do_loss_op env _ loss_op [output_node; VStr "label"] "loss") as [e|op] eqn:R2.
  { leaf. split; [auto with recipe|]. right; right. repeat split. eapply by_loss_op, R2. }
  unfold invoke, outcome in E.
  destruct (do_add_operation env _ network op) as [e|[]] eqn:R3.
  { leaf. split; [auto with recipe|]. right; right. repeat split. eapply by_add_operation, R3. }
  unfold ret in E. leaf. split; [auto with recipe | now split].
Qed.

Lemma construct_dataset_spec
    (env : collaborators) (s : state) (comps : nat) (d : dict)
    (input_node : value) (r : result (value * value)) (s' : state) :
  dicts s !! comps = Some d -> complete d ->
  dict_contains "dataset" d = true ->
  construct_dataset env comps input_node s = (r, s') ->
  quiet s s' /\ match r with inl e => raised_by env e | inr _ => True end.
Proof.
  intros L Hc C E. unfold construct_dataset, bind in E.
  destruct (contains_get _ _ C) as [ds G].
  destruct (complete_companions d "dataset" Hc C eq_refl) as (a & kw & Ga & Gk).
  change (args_key "dataset") with "dataset_args" in Ga.
  change (kwargs_key "dataset") with "dataset_kwargs" in Gk.
  read_in getitem_live E L G. read_in getitem_live E L Ga. read_in getitem_live E L Gk. unfold invoke, outcome in E.
  destruct (do_load_dataset env (trace s) ds input_node "label" a kw) as [e|v] eqn:R;
    leaf; (split; [auto with recipe|]); [eapply by_load_dataset, R | exact I].
Qed.

Lemma construct_sampler_spec
    (env : collaborators) (s : state) (comps : nat) (d : dict)
    (key : string) (set batch : value) (r : result value) (s' : state) :
  dicts s !! comps = Some d -> complete d -> takes_arguments key = true ->
  construct_sampler env comps key set batch s = (r, s') ->
  quiet s s' /\ match r with inl e => raised_by env e | inr _ => True end.
Proof.
  intros L Hc T E. unfold construct_sampler, bind in E.
  erewrite contains_live in E by exact L.
  destruct (dict_contains key d) eqn:C.
  - now apply (instantiate_spec env s comps d key [set; batch]).
  - unfold ret in E. leaf. split; [auto with recipe | exact I].
Qed.

Lemma construct_executor_spec
    (env : collaborators) (s : state) (comps : nat) (d : dict)
    (network : value) (r : result value) (s' : state) :
  dicts s !! comps = Some d -> complete d ->
  construct_executor env comps network s = (r, s') ->
  quiet s s'
  /\ match r with
     | inl e =>
         (dict_contains "executor" d = false
          /\ e = SyntaxError "Executor must be specified in recipe")
         \/ (dict_contains "executor" d = true /\ raised_by env e)
     | inr _ => dict_contains "executor" d = true
     end.
Proof.
  intros L Hc E. unfold construct_executor, bind in E.
  erewrite require_live in E by exact L.
  destruct (dict_contains "executor" d) eqn:C;
    [|leaf; split; [auto with recipe | now left]].
  destruct (instantiate_spec env s comps d "executor" [network] r s' L Hc C eq_refl E)
    as [Q R].
  split; [exact Q|]. destruct r; [right; now split | reflexivity].
Qed.

Lemma construct_optimizer_spec
    (env : collaborators) (s : state) (comps : nat) (d : dict)
    (executor : value) (r : result value) (s' : state) :
  dicts s !! comps = Some d -> complete d ->
  construct_optimizer env comps executor s = (r, s') ->
  quiet s s'
  /\ match r with
     | inl e =>
         (dict_contains "optimizer" d = false
          /\ e = SyntaxError "Optimizer must be specified in training recipe")
         \/ (dict_contains "optimizer" d = true /\ raised_by env e)
     | inr _ => dict_contains "optimizer" d = true
     end.
Proof.
  intros L Hc E. unfold construct_optimizer, bind in E.
  erewrite require_live in E by exact L.
  destruct (dict_contains "optimizer" d) eqn:C;
    [|leaf; split; [auto with recipe | now left]].
  destruct (instantiate_spec env s comps d "optimizer" [executor; VStr "loss"]
              r s' L Hc C eq_refl E) as [Q R].
  split; [exact Q|]. destruct r; [right; now split | reflexivity].
Qed.

(** ** Lines 111-123: the wall-clock entry and the training loop *)

Lemma add_total_time_live (s : state) (metrics : nat) (ms : list MetricRequest) :
  lists s !! metrics = Some ms ->
  add_total_time metrics s = (inr tt, with_list metrics (ms ++ [wallclock]) s).
Proof. intros L. unfold add_total_time, append. now rewrite L. Qed.

Lemma events_defaulted_get (d : dict) :
  exists ev, dict_get "events" (events_defaulted d) = Some ev.
Proof.
  unfold events_defaulted. destruct (dict_contains "events" d) eqn:C.
  - now apply contains_get.
  - exists VNone. apply dict_get_set_eq.
Qed.

Lemma create_trainer_and_run_live
    (env : collaborators) (s : state) (comps metrics : nat) (d : dict)
    (ms : list MetricRequest) (ex ts vs op ba on : value) :
  dicts s !! comps = Some d ->
  lists s !! metrics = Some ms ->
  create_trainer_and_run env comps metrics ex ts vs op ba on s
  = match dict_get "epochs" d with
    | None => (inl (SyntaxError "Epochs must be specified in training recipe"), s)
    | Some ep =>
        let ev := default VNone (dict_get "events" (events_defaulted d)) in
        (outcome (do_test_training env (trace s) ex ts vs op ep ba on (map fst ms) ev),
         log (Called (test_training ex ts vs op ep ba on (map fst ms) ev))
           (with_dict comps (events_defaulted d) s))
    end.
Proof.
  intros L Lm. unfold create_trainer_and_run, bind.
  rewrite (require_live s comps d L). unfold dict_contains at 1.
  destruct (dict_get "epochs" d) as [ep|] eqn:Ge; [|reflexivity].
  rewrite (contains_live s comps d L).
  assert (L2 : dicts (with_dict comps (events_defaulted d) s) !! comps
               = Some (events_defaulted d)) by now apply with_dict_live with d.
  assert (Ge2 : dict_get "epochs" (events_defaulted d) = Some ep).
  { unfold events_defaulted. destruct (dict_contains "events" d); [exact Ge|].
    now rewrite dict_get_set_ne. }
  assert (S2 : (if dict_contains "events" d then ret tt else setitem comps "events" VNone) s
               = (inr tt, with_dict comps (events_defaulted d) s)).
  { unfold events_defaulted. destruct (dict_contains "events" d).
    - unfold ret. now rewrite (with_dict_same s comps d L).
    - now apply setitem_live. }
  rewrite S2. destruct (events_defaulted_get d) as [ev Gv].
  rewrite (getitem_live _ comps _ L2), Ge2.
  unfold read_list. change (lists (with_dict comps (events_defaulted d) s)) with (lists s).
  rewrite Lm. rewrite (getitem_live _ comps _ L2), Gv. reflexivity.
Qed.

(** ** Lines 125-138: the verdict *)

Lemma verify_loop_closed (pairs : list (MetricRequest * float)) (ok : bool) (s : state) :
  verify_loop pairs ok s
  = (inr (ok && all_acceptable pairs), logged (diagnostics pairs) s).
Proof.
  revert ok s. induction pairs as [|[[metric [a|]] result] rest IH]; intros ok s.
  - simpl. unfold ret, logged, diagnostics. simpl.
    rewrite app_nil_r, andb_true_r. now destruct s.
  - simpl. unfold diagnostics, all_acceptable, failing. simpl.
    destruct (PrimFloat.ltb result a) eqn:Lt; simpl.
    + unfold bind, print. rewrite IH. rewrite andb_false_r.
      unfold logged, log. simpl. now rewrite <- app_assoc.
    + now rewrite IH.
  - simpl. unfold diagnostics, all_acceptable, failing. simpl. now rewrite IH.
Qed.

Lemma verify_results_live
    (s : state) (metrics : nat) (ms : list MetricRequest) (results : list float) :
  lists s !! metrics = Some ms ->
  verify_results metrics results s
  = (inr (all_acceptable (combine ms results)), logged (report (combine ms results)) s).
Proof.
  intros L. unfold verify_results, bind, read_list. rewrite L.
  rewrite verify_loop_closed. simpl. unfold report.
  destruct (all_acceptable (combine ms results)); simpl.
  - unfold print, ret, log, logged. simpl. now rewrite <- app_assoc.
  - unfold ret, logged. now rewrite app_nil_r.
Qed.

(** ** Lines 56-138 as a whole *)

Lemma first_missing_unfold (d : dict) :
  first_missing d
  = if dict_contains "dataset" d then
      if dict_contains "model" d then
        if dict_contains "batch_size" d then
          if dict_contains "executor" d then
            if dict_contains "optimizer" d then
              if dict_contains "epochs" d then None
              else Some ("epochs", "Epochs must be specified in training recipe")
            else Some ("optimizer", "Optimizer must be specified in training recipe")
          else Some ("executor", "Executor must be specified in recipe")
        else Some ("batch_size", "Batch size must be specified in training recipe")
      else Some ("model", "Model must be specified in recipe")
    else Some ("dataset", "Dataset must be specified in training recipe").
Proof.
  unfold first_missing, required. simpl.
  repeat match goal with
         | |- context [dict_contains ?k d] =>
             destruct (dict_contains k d); simpl; try reflexivity
         end.
Qed.

Lemma quiet_live (s s' : state) (r : nat) (d : dict) :
  quiet s s' -> dicts s !! r = Some d -> dicts s' !! r = Some d.
Proof. intros (-> & _) L. exact L. Qed.

Lemma quiet_list (s s' : state) (r : nat) (l : list MetricRequest) :
  quiet s s' -> lists s !! r = Some l -> lists s' !! r = Some l.
Proof. intros (_ & -> & _) L. exact L. Qed.

(** How far a run of lines 56-138 gets: it stops before line 112 with the
    error of the first missing key or of a collaborator; or it stops at the
    [epochs] check, the wall-clock entry already appended; or it calls the
    training loop and, when that returns, prints its report. *)
Lemma resolve_and_run_cases
    (env : collaborators) (s : state) (comps metrics : nat) (d : dict)
    (ms : list MetricRequest) (r : result bool) (s' : state) :
  dicts s !! comps = Some d -> complete d -> lists s !! metrics = Some ms ->
  resolve_and_run env comps metrics s = (r, s') ->
  (quiet s s'
   /\ exists e, r = inl e
        /\ ((exists key msg, first_missing d = Some (key, msg) /\ key <> "epochs"
                             /\ e = SyntaxError msg)
            \/ raised_by env e))
  \/ (first_missing d = Some ("epochs", "Epochs must be specified in training recipe")
      /\ r = inl (SyntaxError "Epochs must be specified in training recipe")
      /\ exists s1, quiet s s1 /\ s' = with_list metrics (ms ++ [wallclock]) s1)
  \/ (first_missing d = None
      /\ exists s1 ex ts vs op ep ba on ev,
           quiet s s1
           /\ dict_get "epochs" d = Some ep
           /\ dict_get "events" (events_defaulted d) = Some ev
           /\ let handed := map fst (ms ++ [wallclock]) in
              let s2 := log (Called (test_training ex ts vs op ep ba on handed ev))
                          (with_dict comps (events_defaulted d)
                             (with_list metrics (ms ++ [wallclock]) s1)) in
              match do_test_training env (trace s1) ex ts vs op ep ba on handed ev with
              | inl e => r = inl (Raised e) /\ s' = s2
              | inr results =>
                  r = inr (all_acceptable (combine (ms ++ [wallclock]) results))
                  /\ s' = logged (report (combine (ms ++ [wallclock]) results)) s2
              end).
Proof.
  intros L Hc Lm E. unfold resolve_and_run, bind in E.
  rewrite first_missing_unfold.
  (* dataset metadata *)
  destruct (obtain_dataset_metadata env comps s) as [[e|[[loss_op c] sh]] s1] eqn:E1;
    destruct (obtain_dataset_metadata_spec env s comps d _ _ L E1) as [Q1 O1].
  { leaf. left. split; [exact Q1|]. exists e. split; [reflexivity|].
    destruct O1 as [[C ->]|[C R]]; [left | now right].
    rewrite C. do 2 eexists. now repeat split. }
  rewrite O1. pose proof (quiet_live _ _ _ _ Q1 L) as L1.
  (* network *)
  destruct (construct_network env comps loss_op sh s1)
    as [[e|[[[batch network] input_node] output_node]] s2] eqn:E2;
    destruct (construct_network_spec env s1 comps d _ _ _ _ L1 Hc E2) as [Q2 O2];
    pose proof (quiet_trans _ _ _ Q1 Q2) as Q12.
  { leaf. left. split; [exact Q12|]. exists e. split; [reflexivity|].
    destruct O2 as [[C ->]|[(C & C' & ->)|(_ & _ & R)]]; [left | left | now right].
    - rewrite C. do 2 eexists. now repeat split.
    - rewrite C, C'. do 2 eexists. now repeat split. }
  destruct O2 as [Cm Cb]. rewrite Cm, Cb. pose proof (quiet_live _ _ _ _ Q12 L) as L2.
  (* dataset *)
  destruct (construct_dataset env comps input_node s2)
    as [[e|[train_set validation_set]] s3] eqn:E3;
    destruct (construct_dataset_spec env s2 comps d _ _ _ L2 Hc O1 E3) as [Q3 O3];
    pose proof (quiet_trans _ _ _ Q12 Q3) as Q13.
  { leaf. left. split; [exact Q13|]. exists e. split; [reflexivity | now right]. }
  pose proof (quiet_live _ _ _ _ Q13 L) as L3.
  (* samplers *)
  destruct (construct_sampler env comps "train_sampler" train_set batch s3)
    as [[e|train_sampler] s4] eqn:E4;
    destruct (construct_sampler_spec env s3 comps d "train_sampler" _ _ _ _ L3 Hc eq_refl E4)
      as [Q4 O4];
    pose proof (quiet_trans _ _ _ Q13 Q4) as Q14.
  { leaf. left. split; [exact Q14|]. exists e. split; [reflexivity | now right]. }
  pose proof (quiet_live _ _ _ _ Q14 L) as L4.
  destruct (construct_sampler env comps "validation_sampler" validation_set batch s4)
    as [[e|validation_sampler] s5] eqn:E5;
    destruct (construct_sampler_spec env s4 comps d "validation_sampler" _ _ _ _ L4 Hc
                eq_refl E5) as [Q5 O5];
    pose proof (quiet_trans _ _ _ Q14 Q5) as Q15.
  { leaf. left. split; [exact Q15|]. exists e. split; [reflexivity | now right]. }
  pose proof (quiet_live _ _ _ _ Q15 L) as L5.
  (* executor *)
  destruct (construct_executor env comps network s5) as [[e|executor] s6] eqn:E6;
    destruct (construct_executor_spec env s5 comps d _ _ _ L5 Hc E6) as [Q6 O6];
    pose proof (quiet_trans _ _ _ Q15 Q6) as Q16.
  { leaf. left. split; [exact Q16|]. exists e. split; [reflexivity|].
    destruct O6 as [[C ->]|[C R]]; [left | now right].
    rewrite C. do 2 eexists. now repeat split. }
  rewrite O6. pose proof (quiet_live _ _ _ _ Q16 L) as L6.
  (* optimizer *)
  destruct (construct_optimizer env comps executor s6) as [[e|optimizer] s7] eqn:E7;
    destruct (construct_optimizer_spec env s6 comps d _ _ _ L6 Hc E7) as [Q7 O7];
    pose proof (quiet_trans _ _ _ Q16 Q7) as Q17.
  { leaf. left. split; [exact Q17|]. exists e. split; [reflexivity|].
    destruct O7 as [[C ->]|[C R]]; [left | now right].
    rewrite C. do 2 eexists. now repeat split. }
  rewrite O7. pose proof (quiet_live _ _ _ _ Q17 L) as L7.
  pose proof (quiet_list _ _ _ _ Q17 Lm) as Lm7.
  (* wall-clock entry, epochs check, training loop *)
  rewrite (add_total_time_live s7 metrics ms Lm7) in E.
  set (s8 := with_list metrics (ms ++ [wallclock]) s7) in *.
  assert (Lm8 : lists s8 !! metrics = Some (ms ++ [wallclock])).
  { simpl. apply list_lookup_insert_eq. now apply lookup_lt_Some with ms. }
  rewrite (create_trainer_and_run_live env s8 comps metrics d (ms ++ [wallclock])
             executor train_sampler validation_sampler optimizer batch output_node
             L7 Lm8) in E.
  destruct (dict_contains "epochs" d) eqn:Ce.
  - destruct (contains_get _ _ Ce) as [ep Ge]. rewrite Ge in E.
    right; right. split; [reflexivity|].
    destruct (events_defaulted_get d) as [ev Gv]. rewrite Gv in E. simpl in E.
    exists s7, executor, train_sampler, validation_sampler, optimizer, ep, batch,
           output_node, ev.
    split; [exact Q17|]. split; [exact Ge|]. split; [exact Gv|]. cbv zeta.
    change (trace s8) with (trace s7) in E.
    destruct (do_test_training env (trace s7) executor train_sampler validation_sampler
                optimizer ep batch output_node (map fst (ms ++ [wallclock])) ev)
      as [e|results] eqn:R; unfold outcome in E.
    + leaf. now split.
    + rewrite (verify_results_live _ metrics (ms ++ [wallclock]) results) in E
        by exact Lm8.
      leaf. now split.
  - assert (Ge : dict_get "epochs" d = None).
    { unfold dict_contains in Ce. now destruct (dict_get "epochs" d). }
    rewrite Ge in E.
    right; left. split; [reflexivity|]. leaf. split; [reflexivity|].
    exists s7. now split.
Qed.

(** ** Lines 39-54 in front of lines 56-138 *)

Lemma endswith_args_key (x : string) : endswith (args_key x) "_args" = true.
Proof. apply endswith_spec. now exists x. Qed.

Lemma endswith_kwargs_key (x : string) : endswith (kwargs_key x) "_kwargs" = true.
Proof. apply endswith_spec. now exists x. Qed.


Lemma complete_normalized (f m : dict) : complete (normalized f m).
Proof.
  unfold normalized. set (d := dict_merge f m). intros k C T.
  destruct (dict_get k d) as [v|] eqn:G.
  - apply completed_adds; [|exact T].
    apply dict_contains_keys. unfold dict_contains. now rewrite G.
  - unfold takes_arguments in T. apply andb_prop in T as [_ T].
    apply negb_true_iff, orb_false_elim in T as [Na Nk].
    destruct (completed_fresh (dict_keys d) k d (or_introl G))
      as [N|[(x & -> & _)|(x & -> & _)]].
    + unfold dict_contains in C. now rewrite N in C.
    + now rewrite endswith_args_key in Na.
    + now rewrite endswith_kwargs_key in Nk.
Qed.


(** [run_recipe] up to line 54. *)
Lemma run_recipe_front
    (env : collaborators) (fixed mutable metrics : nat) (s : state) :
  run_recipe env fixed mutable metrics s
  = match dicts s !! fixed, dicts s !! mutable with
    | Some f, Some m =>
        if overlap f m
        then (inl (RuntimeError "Fixed and mutable components cannot overlap"), s)
        else resolve_and_run env (length (dicts s)) metrics (built (normalized f m) s)
    | _, _ => (inl InvalidReference, s)
    end.
Proof.
  change (run_recipe env fixed mutable metrics)
    with (comps <- create_unified_dictionary fixed mutable ;;
          add_missing_arguments comps ;; resolve_and_run env comps metrics).
  unfold bind at 1. unfold create_unified_dictionary, bind at 1 2, read_dict.
  destruct (dicts s !! fixed) as [f|]; [|reflexivity].
  destruct (dicts s !! mutable) as [m|]; [|reflexivity].
  destruct (overlap f m); [reflexivity|].
  unfold new_dict. unfold bind.
  set (s1 := mkState (dicts s ++ [dict_merge f m]) (lists s) (trace s)).
  assert (L1 : dicts s1 !! length (dicts s) = Some (dict_merge f m)).
  { simpl. rewrite lookup_app_r by reflexivity. now rewrite Nat.sub_diag. }
  rewrite (add_missing_arguments_live s1 _ _ L1).
  f_equal. unfold with_dict, built, s1. simpl. f_equal.
  rewrite insert_app_r_alt by reflexivity. now rewrite Nat.sub_diag.
Qed.

Lemma built_live (d : dict) (s : state) : dicts (built d s) !! length (dicts s) = Some d.
Proof. simpl. rewrite lookup_app_r by reflexivity. now rewrite Nat.sub_diag. Qed.

Lemma built_keeps (d d0 : dict) (s : state) (r : nat) :
  dicts s !! r = Some d0 -> dicts (built d s) !! r = Some d0.
Proof. intros L. simpl. now apply lookup_app_l_Some. Qed.

Lemma run_recipe_resolves
    (env : collaborators) (s : state) (fixed mutable metrics : nat) (f m : dict) :
  dicts s !! fixed = Some f -> dicts s !! mutable = Some m -> overlap f m = false ->
  run_recipe env fixed mutable metrics s
  = resolve_and_run env (length (dicts s)) metrics (built (normalized f m) s).
Proof. intros Lf Lm Ho. now rewrite run_recipe_front, Lf, Lm, Ho. Qed.



(** ** Missing required keys *)




(** ** What a run writes *)

(** C9.  Whatever [run_recipe] does, returning or raising, every dictionary
    the store held before the call, [fixed] and [mutable] among them, is the
    same afterwards: the defaults and the [events] entry go into the one
    dictionary the run itself created. *)
Theorem caller_dictionaries_unchanged
    (env : collaborators) (s : state) (fixed mutable metrics : nat)
    (f m : dict) (ms : list MetricRequest) :
  dicts s !! fixed = Some f ->
  dicts s !! mutable = Some m ->
  lists s !! metrics = Some ms ->
  dicts (snd (run_recipe env fixed mutable metrics s)) !! fixed = Some f
  /\ dicts (snd (run_recipe env fixed mutable metrics s)) !! mutable = Some m
  /\ forall r d0, dicts s !! r = Some d0 ->
       dicts (snd (run_recipe env fixed mutable metrics s)) !! r = Some d0.
Proof.
  intros Lf Lm Ll.
  assert (Frame : forall r d0, dicts s !! r = Some d0 ->
            dicts (snd (run_recipe env fixed mutable metrics s)) !! r = Some d0).
  { intros r d0 L0. rewrite run_recipe_front, Lf, Lm.
    destruct (overlap f m); [exact L0|].
    destruct (resolve_and_run env (length (dicts s)) metrics (built (normalized f m) s))
      as [res s'] eqn:E. simpl.
    pose proof (built_keeps (normalized f m) d0 s r L0) as Lb.
    destruct (resolve_and_run_cases env _ _ _ _ ms res s' (built_live _ s)
                (complete_normalized f m) Ll E)
      as [(Q & _)|[(_ & _ & s1 & Q & ->)|(_ & s1 & ex & ts & vs & op & ep & ba & on & ev
                                            & Q & _ & _ & T)]].
    - now apply (quiet_live _ _ _ _ Q).
    - simpl. now apply (quiet_live _ _ _ _ Q).
    - assert (N : length (dicts s) <> r).
      { apply lookup_lt_Some in L0. lia. }
      pose proof (quiet_live _ _ _ _ Q Lb) as L1. cbv zeta in T.
      destruct (do_test_training _ _ _ _ _ _ _ _ _ _ _) as [e|results];
        destruct T as [_ ->]; simpl; now rewrite list_lookup_insert_ne. }
  split; [now apply Frame|]. split; [now apply Frame | exact Frame].
Qed.

Lemma caller_dictionaries_unchanged_witness :
  dicts (snd (run_recipe (Scenario.world 0.5) 0 1 0
                (Scenario.start Scenario.fixed Scenario.mutable
                   [(Scenario.Accuracy, Some 0.25%float)]))) !! 0
  = Some Scenario.fixed.
Proof.
  exact (proj1 (caller_dictionaries_unchanged (Scenario.world 0.5)
                  (Scenario.start Scenario.fixed Scenario.mutable
                     [(Scenario.Accuracy, Some 0.25%float)])
                  0 1 0 Scenario.fixed Scenario.mutable
                  [(Scenario.Accuracy, Some 0.25%float)]
                  eq_refl eq_refl eq_refl)).
Defined.

Lemma no_training_in (t : list event)
    (ex ts vs op ep ba on : value) (handed : list TestMetric) (ev : value) :
  existsb is_test_training t = false ->
  ~ In (Called (test_training ex ts vs op ep ba on handed ev)) t.
Proof.
  intros Q I. assert (X : existsb is_test_training t = true).
  { apply existsb_exists. eexists. split; [exact I | reflexivity]. }
  congruence.
Qed.

Lemma first_missing_epochs (d : dict) (key : string) :
  first_missing d = Some (key, "Epochs must be specified in training recipe") ->
  key = "epochs".
Proof.
  rewrite first_missing_unfold.
  repeat match goal with
         | |- context [dict_contains ?k d] => destruct (dict_contains k d)
         end; intros H; try discriminate H; now injection H.
Qed.

(** C10.  The wall-clock entry is appended to the caller's own list object.
    After any run the list is as it was or one entry longer, and it is one
    entry longer whenever the run returned, whenever it raised the [epochs]
    error, and whenever the training loop was called. *)
Theorem wallclock_entry_appended_in_place
    (env : collaborators) (s : state) (fixed mutable metrics : nat)
    (ms : list MetricRequest) (r : result bool) (s' : state) :
  lists s !! metrics = Some ms ->
  run_recipe env fixed mutable metrics s = (r, s') ->
  (lists s' !! metrics = Some ms
   \/ lists s' !! metrics = Some (ms ++ [(WallclockTime 0 1, None)]))
  /\ (forall b, r = inr b ->
        lists s' !! metrics = Some (ms ++ [(WallclockTime 0 1, None)]))
  /\ (r = inl (SyntaxError "Epochs must be specified in training recipe") ->
        lists s' !! metrics = Some (ms ++ [(WallclockTime 0 1, None)]))
  /\ (forall t, trace s' = trace s ++ t -> existsb is_test_training t = true ->
        lists s' !! metrics = Some (ms ++ [(WallclockTime 0 1, None)])).
Proof.
  intros Ll E. rewrite run_recipe_front in E.
  assert (Same : s' = s -> forall e, r = inl e ->
            e <> SyntaxError "Epochs must be specified in training recipe" ->
            (lists s' !! metrics = Some ms
             \/ lists s' !! metrics = Some (ms ++ [(WallclockTime 0 1, None)]))
            /\ (forall b, r = inr b ->
                  lists s' !! metrics = Some (ms ++ [(WallclockTime 0 1, None)]))
            /\ (r = inl (SyntaxError "Epochs must be specified in training recipe") ->
                  lists s' !! metrics = Some (ms ++ [(WallclockTime 0 1, None)]))
            /\ (forall t, trace s' = trace s ++ t -> existsb is_test_training t = true ->
                  lists s' !! metrics = Some (ms ++ [(WallclockTime 0 1, None)]))).
  { intros -> e -> Ne. split; [now left|]. split; [discriminate|].
    split; [intros H; injection H as ->; contradiction|].
    intros t T. rewrite <- (app_nil_r (trace s)) in T at 1.
    apply app_inv_head in T as <-. discriminate. }
  destruct (dicts s !! fixed) as [f|];
    [|injection E as <- <-; apply (Same eq_refl _ eq_refl); discriminate].
  destruct (dicts s !! mutable) as [m|];
    [|injection E as <- <-; apply (Same eq_refl _ eq_refl); discriminate].
  destruct (overlap f m);
    [injection E as <- <-; apply (Same eq_refl _ eq_refl); discriminate|].
  clear Same.
  assert (Ll' : lists (built (normalized f m) s) !! metrics = Some ms) by exact Ll.
  destruct (resolve_and_run_cases env _ _ _ _ ms r s' (built_live _ s)
              (complete_normalized f m) Ll' E)
    as [(Q & e & -> & He)|[(_ & -> & s1 & Q & ->)|(_ & s1 & ex & ts & vs & op & ep & ba
                                                    & on & ev & Q & _ & _ & T)]].
  - split; [left; now apply (quiet_list _ _ _ _ Q)|]. split; [discriminate|]. split.
    + intros H. injection H as ->.
      destruct He as [(key & msg & F & N & H)|R]; [|inversion R].
      injection H as <-. now apply first_missing_epochs in F.
    + intros t T X. destruct Q as (_ & _ & t' & T' & Q). simpl in T'.
      rewrite T' in T. apply app_inv_head in T as <-. congruence.
  - assert (A : lists (with_list metrics (ms ++ [wallclock]) s1) !! metrics
                = Some (ms ++ [(WallclockTime 0 1, None)])).
    { simpl. apply list_lookup_insert_eq.
      apply lookup_lt_Some with ms. now apply (quiet_list _ _ _ _ Q). }
    split; [now right|]. split; [intros _ _; exact A|]. split; intros; exact A.
  - assert (A : lists s' !! metrics = Some (ms ++ [(WallclockTime 0 1, None)])).
    { cbv zeta in T.
      destruct (do_test_training _ _ _ _ _ _ _ _ _ _ _) as [e|results];
        destruct T as [_ ->]; simpl; apply list_lookup_insert_eq;
        apply lookup_lt_Some with ms; now apply (quiet_list _ _ _ _ Q). }
    split; [now right|]. split; [intros _ _; exact A|]. split; intros; exact A.
Qed.

Lemma wallclock_entry_appended_in_place_witness :
  lists (snd (run_recipe (Scenario.world 0.5) 0 1 0
                (Scenario.start Scenario.fixed
                   [("dataset", Scenario.D); ("batch_size", VInt 32);
                    ("optimizer", Scenario.O)]
                   [(Scenario.Accuracy, Some 0.25%float)]))) !! 0
  = Some ([(Scenario.Accuracy, Some 0.25%float)] ++ [(WallclockTime 0 1, None)]).
Proof.
  refine (proj1 (proj2 (proj2
            (wallclock_entry_appended_in_place (Scenario.world 0.5)
               (Scenario.start Scenario.fixed
                  [("dataset", Scenario.D); ("batch_size", VInt 32);
                   ("optimizer", Scenario.O)]
                  [(Scenario.Accuracy, Some 0.25%float)])
               0 1 0 [(Scenario.Accuracy, Some 0.25%float)] _ _
               eq_refl (surjective_pairing _)))) _).
  vm_compute. reflexivity.
Defined.

(** ** A run that returns *)

Lemma run_recipe_returns
    (env : collaborators) (s : state) (fixed mutable metrics : nat)
    (ms : list MetricRequest) (b : bool) (s' : state) :
  lists s !! metrics = Some ms ->
  run_recipe env fixed mutable metrics s = (inr b, s') ->
  exists t ex ts vs op ep ba on ev results,
    existsb is_test_training t = false
    /\ do_test_training env (trace s ++ t) ex ts vs op ep ba on
         (map fst (ms ++ [wallclock])) ev = inr results
    /\ b = all_acceptable (combine (ms ++ [wallclock]) results)
    /\ lists s' !! metrics = Some (ms ++ [wallclock])
    /\ trace s'
       = (trace s ++ t)
         ++ [Called (test_training ex ts vs op ep ba on
                       (map fst (ms ++ [wallclock])) ev)]
         ++ report (combine (ms ++ [wallclock]) results).
Proof.
  intros Ll E. rewrite run_recipe_front in E.
  destruct (dicts s !! fixed) as [f|]; [|discriminate E].
  destruct (dicts s !! mutable) as [m|]; [|discriminate E].
  destruct (overlap f m); [discriminate E|].
  assert (Ll' : lists (built (normalized f m) s) !! metrics = Some ms) by exact Ll.
  destruct (resolve_and_run_cases env _ _ _ _ ms _ s' (built_live _ s)
              (complete_normalized f m) Ll' E)
    as [(_ & e & X & _)|[(_ & X & _)|(_ & s1 & ex & ts & vs & op & ep & ba
                                       & on & ev & Q & _ & _ & T)]];
    [discriminate X | discriminate X |].
  destruct Q as (_ & Ql & t & Qt & Qn). simpl in Qt. cbv zeta in T.
  exists t, ex, ts, vs, op, ep, ba, on, ev. rewrite <- Qt.
  destruct (do_test_training env (trace s1) ex ts vs op ep ba on
              (map fst (ms ++ [wallclock])) ev) as [e|results];
    destruct T as [X ->]; [discriminate X|].
  injection X as ->. exists results.
  split; [exact Qn|]. split; [reflexivity|]. split; [reflexivity|]. split.
  - simpl. apply list_lookup_insert_eq. apply lookup_lt_Some with ms.
    now rewrite Ql.
  - simpl. now rewrite <- app_assoc.
Qed.

Lemma all_acceptable_filter (pairs : list (MetricRequest * float)) :
  all_acceptable pairs = true <-> List.filter failing pairs = [].
Proof.
  unfold all_acceptable. induction pairs as [|p pairs IH]; simpl; [tauto|].
  destruct (failing p); simpl; [split; discriminate | exact IH].
Qed.

(** ** The verdict *)

(** C5.  When [run_recipe] returns, it returns [True] exactly when no pair of
    [zip(metrics, results)] fails.  After the call to the training loop it
    prints one [FAIL] line for every failing pair, in order, whatever failed
    before, and then [PASSED] when none failed. *)
Theorem verdict_true_iff_no_failure
    (env : collaborators) (s : state) (fixed mutable metrics : nat)
    (ms : list MetricRequest) (b : bool) (s' : state) :
  lists s !! metrics = Some ms ->
  run_recipe env fixed mutable metrics s = (inr b, s') ->
  exists h ex ts vs op ep ba on handed ev results,
    do_test_training env h ex ts vs op ep ba on handed ev = inr results
    /\ (b = true <->
        List.filter failing (combine (ms ++ [(WallclockTime 0 1, None)]) results) = [])
    /\ trace s'
       = h ++ [Called (test_training ex ts vs op ep ba on handed ev)]
           ++ map fail_line
                (List.filter failing
                   (combine (ms ++ [(WallclockTime 0 1, None)]) results))
           ++ (if b then [Printed PASSED] else []).
Proof.
  intros Ll E.
  destruct (run_recipe_returns env s fixed mutable metrics ms b s' Ll E)
    as (t & ex & ts & vs & op & ep & ba & on & ev & results & _ & R & -> & _ & T).
  exists (trace s ++ t), ex, ts, vs, op, ep, ba, on,
         (map fst (ms ++ [wallclock])), ev, results.
  split; [exact R|]. split; [apply all_acceptable_filter|].
  rewrite T. unfold report, diagnostics. now rewrite <- !app_assoc.
Qed.

Lemma verdict_true_iff_no_failure_witness :
  exists results,
    List.filter failing
      (combine ([(Scenario.Accuracy, Some 0.25%float)] ++ [(WallclockTime 0 1, None)])
         results) = [].
Proof.
  assert (X : run_recipe (Scenario.world 0.5) 0 1 0
                (Scenario.start Scenario.fixed Scenario.mutable
                   [(Scenario.Accuracy, Some 0.25%float)])
              = (inr true,
                 snd (run_recipe (Scenario.world 0.5) 0 1 0
                        (Scenario.start Scenario.fixed Scenario.mutable
                           [(Scenario.Accuracy, Some 0.25%float)]))))
    by (vm_compute; reflexivity).
  destruct (verdict_true_iff_no_failure (Scenario.world 0.5)
              (Scenario.start Scenario.fixed Scenario.mutable
                 [(Scenario.Accuracy, Some 0.25%float)])
              0 1 0 [(Scenario.Accuracy, Some 0.25%float)] true _ eq_refl X)
    as (h & ex & ts & vs & op & ep & ba & on & handed & ev & results & _ & Hiff & _).
  exists results. now apply Hiff.
Defined.

(** ** The wall-clock entry *)






(** ** Thresholds (lines 127-132) *)

Lemma SFcompare_antisym (x y : spec_float) :
  SFcompare y x = match SFcompare x y with
                  | Some c => Some (CompOpp c)
                  | None => None
                  end.
Proof.
  destruct x as [sx|sx| |sx mx ex], y as [sy|sy| |sy my ey]; simpl;
    try reflexivity; try (now destruct sx); try (now destruct sy);
    try (now destruct sx, sy).
  destruct sx, sy; try reflexivity; rewrite (Z.compare_antisym ex ey);
    destruct (ex ?= ey)%Z; simpl; try reflexivity; f_equal.
  - f_equal. apply ZC4.
  - apply ZC4.
Qed.

(** [r == t] excludes [r < t]. *)
Lemma float_eqb_not_ltb (r t : float) :
  PrimFloat.eqb r t = true -> PrimFloat.ltb r t = false.
Proof.
  rewrite FloatAxioms.eqb_spec, FloatAxioms.ltb_spec. unfold SFeqb, SFltb.
  now destruct (SFcompare (Prim2SF r) (Prim2SF t)) as [[]|].
Qed.

(** [r > t] excludes [r < t]. *)
Lemma float_gtb_not_ltb (r t : float) :
  PrimFloat.ltb t r = true -> PrimFloat.ltb r t = false.
Proof.
  rewrite !FloatAxioms.ltb_spec. unfold SFltb.
  rewrite (SFcompare_antisym (Prim2SF t) (Prim2SF r)).
  now destruct (SFcompare (Prim2SF t) (Prim2SF r)) as [[]|].
Qed.

Lemma failing_spec (p : MetricRequest * float) :
  failing p = true
  <-> exists metric t r, p = ((metric, Some t), r) /\ PrimFloat.ltb r t = true.
Proof.
  destruct p as [[metric [t|]] r]; unfold failing; simpl.
  - split; [intros H; now exists metric, t, r|].
    intros (metric' & t' & r' & X & H). now injection X as -> -> ->.
  - split; [discriminate|]. intros (metric' & t' & r' & X & _). discriminate X.
Qed.

(** C4.  Run on any sequence of pairs [((metric, acceptable), result)], the
    loop of lines 127-132 ends with [ok] false exactly when some pair has an
    acceptable value [t] that is not [None] and a result [r] with [r < t],
    and it prints a [FAIL] line exactly for those pairs; a pair whose
    acceptable value is [None] never counts, and neither does one with
    [r == t] or [r > t]. *)
Theorem failure_iff_below_threshold
    (pairs : list (MetricRequest * float)) (s : state) :
  exists ok printed,
    verify_loop pairs true s = (inr ok, logged printed s)
    /\ (ok = false <->
        exists metric t r, In ((metric, Some t), r) pairs /\ PrimFloat.ltb r t = true)
    /\ (forall e, In e printed <->
          exists metric t r, In ((metric, Some t), r) pairs
                             /\ PrimFloat.ltb r t = true
                             /\ e = Printed (FAIL (type_name metric) r t))
    /\ ((forall p, In p pairs -> snd (fst p) = None) -> ok = true /\ printed = [])
    /\ (forall r t, PrimFloat.eqb r t = true \/ PrimFloat.ltb t r = true ->
          unacceptable (Some t) r = false).
Proof.
  exists (all_acceptable pairs), (diagnostics pairs).
  split; [now rewrite verify_loop_closed|].
  assert (Ok : all_acceptable pairs = false <->
               exists metric t r,
                 In ((metric, Some t), r) pairs /\ PrimFloat.ltb r t = true).
  { unfold all_acceptable. split.
    - intros H. induction pairs as [|p ps IH]; [discriminate H|]. simpl in H.
      destruct (failing p) eqn:Fp.
      + apply failing_spec in Fp as (metric & t & r & -> & Lt).
        exists metric, t, r. split; [now left | exact Lt].
      + destruct (IH H) as (metric & t & r & I & Lt).
        exists metric, t, r. split; [now right | exact Lt].
    - intros (metric & t & r & I & Lt).
      destruct (forallb (fun p => negb (failing p)) pairs) eqn:X; [|reflexivity].
      rewrite forallb_forall in X. specialize (X _ I).
      unfold failing in X. simpl in X. now rewrite Lt in X. }
  split; [exact Ok|]. split.
  - intros e. unfold diagnostics. rewrite in_map_iff. split.
    + intros (p & <- & I). apply filter_In in I as [I Fp].
      apply failing_spec in Fp as (metric & t & r & -> & Lt).
      now exists metric, t, r.
    + intros (metric & t & r & I & Lt & ->).
      exists ((metric, Some t), r). split; [reflexivity|].
      apply filter_In. split; [exact I|]. unfold failing. exact Lt.
  - split.
    + intros Hn.
      assert (A : all_acceptable pairs = true).
      { apply not_false_iff_true. intros A.
        apply Ok in A as (metric & t & r & I & _). now apply Hn in I. }
      split; [exact A|]. unfold diagnostics.
      apply all_acceptable_filter in A. now rewrite A.
    + intros r t [H|H]; simpl; [now apply float_eqb_not_ltb | now apply float_gtb_not_ltb].
Qed.

(** ** Samplers (lines 84-97) *)




(** ** Dataset metadata and the network (lines 56-77) *)

(** C8.  When lines 57-63 and then lines 65-77 complete, five calls were
    made, in this order: the loss constructor and the shape of
    [comps['dataset']] were asked for; the shape's first element is
    [ds_classes] and the rest is [sample_shape]; the model was created from
    [comps['model']] with the batch size, [*model_args],
    [shape=sample_shape] and [**model_kwargs], giving the network and its
    input and output nodes; the loss constructor was called on
    [[output_node, 'label']] and ['loss']; and its result was added to the
    network. *)
Theorem model_created_and_loss_attached
    (env : collaborators) (s : state) (comps : nat) (d : dict)
    (loss_op : value) (ds_classes : Z) (sample_shape : list Z)
    (batch network input_node output_node : value) (s1 s2 : state) :
  dicts s !! comps = Some d ->
  obtain_dataset_metadata env comps s = (inr (loss_op, ds_classes, sample_shape), s1) ->
  construct_network env comps loss_op sample_shape s1
  = (inr (batch, network, input_node, output_node), s2) ->
  exists ds model model_args model_kwargs op h1 h2 h3 h4,
    dict_get "dataset" d = Some ds
    /\ dict_get "model" d = Some model
    /\ dict_get "batch_size" d = Some batch
    /\ dict_get "model_args" d = Some model_args
    /\ dict_get "model_kwargs" d = Some model_kwargs
    /\ do_dataset_loss env (trace s) ds = inr loss_op
    /\ do_dataset_shape env h1 ds = inr (ds_classes :: sample_shape)
    /\ do_create_model env h2 model batch model_args sample_shape model_kwargs
       = inr (network, input_node, output_node)
    /\ do_loss_op env h3 loss_op [output_node; VStr "label"] "loss" = inr op
    /\ do_add_operation env h4 network op = inr tt
    /\ h1 = trace s ++ [Called (dataset_loss ds)]
    /\ h2 = h1 ++ [Called (dataset_shape ds)]
    /\ h3 = h2 ++ [Called (create_model model batch model_args sample_shape
                             model_kwargs)]
    /\ h4 = h3 ++ [Called (loss_op_call loss_op [output_node; VStr "label"] "loss")]
    /\ trace s2 = h4 ++ [Called (add_operation network op)]
    /\ dicts s2 = dicts s /\ lists s2 = lists s.
Proof.
  intros L E1 E2.
  (* lines 57-63 *)
  unfold obtain_dataset_metadata, bind in E1.
  erewrite require_live in E1 by exact L.
  destruct (dict_contains "dataset" d) eqn:Cd; [|discriminate E1].
  destruct (contains_get _ _ Cd) as [ds Gd].
  read_in getitem_live E1 L Gd. unfold invoke at 1 in E1; unfold outcome at 1 in E1.
  destruct (do_dataset_loss env (trace s) ds) as [e|loss_op'] eqn:R1; [discriminate E1|].
  read_in getitem_live E1 L Gd. unfold invoke, outcome in E1.
  destruct (do_dataset_shape env _ ds) as [e|[|c sh]] eqn:R2;
    [discriminate E1 | discriminate E1 |].
  unfold ret in E1. injection E1 as -> -> -> <-.
  (* lines 65-77 *)
  assert (L1 : dicts (log (Called (dataset_shape ds)) (log (Called (dataset_loss ds)) s))
               !! comps = Some d) by exact L.
  unfold construct_network, bind in E2.
  erewrite require_live in E2 by exact L1.
  destruct (dict_contains "model" d) eqn:Cm; [|discriminate E2].
  erewrite require_live in E2 by exact L1.
  destruct (dict_contains "batch_size" d) eqn:Cb; [|discriminate E2].
  destruct (contains_get _ _ Cm) as [model Gm], (contains_get _ _ Cb) as [batch' Gb].
  read_in getitem_live E2 L1 Gb. read_in getitem_live E2 L1 Gm.
  erewrite getitem_live in E2 by exact L1.
  destruct (dict_get "model_args" d) as [a|] eqn:Ga; [|discriminate E2].
  cbn beta iota in E2. erewrite getitem_live in E2 by exact L1.
  destruct (dict_get "model_kwargs" d) as [kw|] eqn:Gk; [|discriminate E2].
  cbn beta iota in E2. unfold invoke at 1 in E2; unfold outcome at 1 in E2.
  destruct (do_create_model env _ model batch' a sample_shape kw)
    as [e|[[network' input_node'] output_node']] eqn:R3; [discriminate E2|].
  unfold invoke at 1 in E2; unfold outcome at 1 in E2.
  destruct (do_loss_op env _ loss_op [output_node'; VStr "label"] "loss")
    as [e|op] eqn:R4; [discriminate E2|].
  unfold invoke, outcome in E2.
  destruct (do_add_operation env _ network' op) as [e|[]] eqn:R5; [discriminate E2|].
  unfold ret in E2. injection E2 as -> -> -> -> <-.
  exists ds, model, a, kw, op. do 4 eexists.
  repeat (split; [first [eassumption | reflexivity]|]).
  now split.
Qed.

Lemma model_created_and_loss_attached_witness :
  exists model model_args model_kwargs h,
    dict_get "model" (normalized Scenario.fixed Scenario.mutable) = Some model
    /\ do_create_model (Scenario.world 0.5) h model (VInt 32) model_args
         [1; 28; 28]%Z model_kwargs
       = inr (VObj 11, VStr "input", VStr "output").
Proof.
  destruct (model_created_and_loss_attached (Scenario.world 0.5)
              (mkState [normalized Scenario.fixed Scenario.mutable] [] [])
              0 (normalized Scenario.fixed Scenario.mutable)
              (VObj 10) 10%Z [1; 28; 28]%Z
              (VInt 32) (VObj 11) (VStr "input") (VStr "output")
              _ _ eq_refl eq_refl eq_refl)
    as (ds & model & model_args & model_kwargs & op & h1 & h2 & h3 & h4
        & _ & Gm & _ & _ & _ & _ & _ & R & _).
  now exists model, model_args, model_kwargs, h2.
Defined.

(** ** The recipe of the specification, run

    [fixed = {model: M, executor: E}],
    [mutable = {dataset: D, batch_size: 32, epochs: 5, optimizer: O}],
    [metrics = [(Accuracy, 0.9)]]. *)

Example accuracy_above_threshold_passes :
  let run := run_recipe (Scenario.world 0.95) 0 1 0
               (Scenario.start Scenario.fixed Scenario.mutable
                  [(Scenario.Accuracy, Some 0.9%float)]) in
  fst run = inr true
  /\ List.filter (fun e => negb (is_call e)) (trace (snd run)) = [Printed PASSED]
  /\ lists (snd run) !! 0
     = Some [(Scenario.Accuracy, Some 0.9%float); (WallclockTime 0 1, None)].
Proof. vm_compute. repeat split; reflexivity. Qed.

Example accuracy_below_threshold_fails :
  let run := run_recipe (Scenario.world 0.8) 0 1 0
               (Scenario.start Scenario.fixed Scenario.mutable
                  [(Scenario.Accuracy, Some 0.9%float)]) in
  fst run = inr false
  /\ List.filter (fun e => negb (is_call e)) (trace (snd run))
     = [Printed (FAIL "Accuracy" 0.8 0.9)].
Proof. vm_compute. repeat split; reflexivity. Qed.

Example calls_of_a_full_run :
  List.filter is_call
    (trace (snd (run_recipe (Scenario.world 0.95) 0 1 0
                   (Scenario.start Scenario.fixed Scenario.mutable
                      [(Scenario.Accuracy, Some 0.9%float)]))))
  = [ Called (dataset_loss Scenario.D);
      Called (dataset_shape Scenario.D);
      Called (create_model Scenario.M (VInt 32) (VTuple []) [1; 28; 28]%Z (VDict []));
      Called (loss_op_call (VObj 10) [VStr "output"; VStr "label"] "loss");
      Called (add_operation (VObj 11) (VObj 12));
      Called (load_dataset Scenario.D (VStr "input") "label" (VTuple []) (VDict []));
      Called (construct Scenario.E [VObj 11] (VTuple []) (VDict []));
      Called (construct Scenario.O
                [VTuple [VStr "made by"; Scenario.E]; VStr "loss"]
                (VTuple []) (VDict []));
      Called (test_training (VTuple [VStr "made by"; Scenario.E]) (VObj 13) (VObj 14)
                (VTuple [VStr "made by"; Scenario.O]) (VInt 5) (VInt 32)
                (VStr "output") [Scenario.Accuracy; WallclockTime 0 1] VNone) ].
Proof. vm_compute. reflexivity. Qed.

(** * Further properties of [run_recipe] *)

(** ** What completion adds, and what it leaves alone *)

Lemma completed_for_new (k j : string) (d : dict) :
  dict_get j d = None -> dict_get j (completed_for k d) <> None ->
  takes_arguments k = true /\ (j = args_key k \/ j = kwargs_key k).
Proof.
  intros N S. unfold completed_for in S.
  destruct (takes_arguments k); [|contradiction]. split; [reflexivity|].
  destruct (String.eqb_spec j (args_key k)) as [->|Na]; [now left|].
  destruct (String.eqb_spec j (kwargs_key k)) as [->|Nk]; [now right|].
  exfalso. apply S.
  set (d1 := if dict_contains (args_key k) d then d
             else dict_set (args_key k) (VTuple []) d) in *.
  assert (N1 : dict_get j d1 = None).
  { unfold d1. destruct (dict_contains (args_key k) d); [exact N|].
    now rewrite dict_get_set_ne. }
  destruct (dict_contains (kwargs_key k) d1); [exact N1|].
  now rewrite dict_get_set_ne.
Qed.

Lemma completed_new (ks : list string) (j : string) (d : dict) :
  dict_get j d = None -> dict_get j (completed ks d) <> None ->
  exists k, In k ks /\ takes_arguments k = true
            /\ (j = args_key k \/ j = kwargs_key k).
Proof.
  revert d. induction ks as [|k ks IH]; intros d N S; simpl in S; [contradiction|].
  destruct (dict_get j (completed_for k d)) as [v|] eqn:G.
  - destruct (completed_for_new k j d N) as [T E]; [now rewrite G|].
    exists k. split; [now left | now split].
  - destruct (IH _ G S) as (k' & I & T & E). exists k'. split; [now right | now split].
Qed.

(** X1.  After lines 39-54 the dictionary [comps] holds the keys of [fixed]
    and [mutable] and, for each of those keys that takes arguments, its
    [_args] and [_kwargs] companions; it holds no other key. *)
Theorem completion_adds_only_companions
    (s : state) (fixed mutable : nat) (f m : dict) :
  dicts s !! fixed = Some f ->
  dicts s !! mutable = Some m ->
  overlap f m = false ->
  exists comps s1 s2 d',
    create_unified_dictionary fixed mutable s = (inr comps, s1)
    /\ add_missing_arguments comps s1 = (inr tt, s2)
    /\ dicts s2 !! comps = Some d'
    /\ forall j,
         dict_contains j d' = true
         <-> (dict_contains j f = true \/ dict_contains j m = true)
             \/ exists k, (dict_contains k f = true \/ dict_contains k m = true)
                          /\ takes_arguments k = true
                          /\ (j = args_key k \/ j = kwargs_key k).
Proof.
  intros Lf Lm Ho.
  set (d := dict_merge f m).
  set (s1 := mkState (dicts s ++ [d]) (lists s) (trace s)).
  assert (L1 : dicts s1 !! length (dicts s) = Some d).
  { simpl. rewrite lookup_app_r by reflexivity. now rewrite Nat.sub_diag. }
  assert (In_d : forall k, dict_contains k d = true
                           <-> dict_contains k f = true \/ dict_contains k m = true).
  { intros k. unfold d. rewrite dict_contains_merge. apply orb_true_iff. }
  exists (length (dicts s)), s1,
         (with_dict (length (dicts s)) (completed (dict_keys d) d) s1),
         (completed (dict_keys d) d).
  split; [|split; [|split]].
  - unfold create_unified_dictionary, bind.
    now rewrite (read_dict_live s fixed f Lf), (read_dict_live s mutable m Lm), Ho.
  - now apply add_missing_arguments_live.
  - now apply with_dict_live with d.
  - intros j. split.
    + intros C. destruct (dict_get j d) as [v|] eqn:G.
      * left. apply In_d. unfold dict_contains. now rewrite G.
      * right. destruct (completed_new (dict_keys d) j d G) as (k & I & T & E).
        { unfold dict_contains in C. now destruct (dict_get j (completed _ d)). }
        exists k. split; [|now split].
        apply In_d. now apply dict_contains_keys.
    + intros [C|(k & C & T & E)].
      * apply In_d in C. destruct (contains_get _ _ C) as [v G].
        unfold dict_contains. now rewrite (completed_keeps _ _ _ _ G).
      * apply In_d, dict_contains_keys in C.
        destruct (completed_adds (dict_keys d) k d C T) as [A K].
        now destruct E as [-> | ->].
Qed.

Lemma completion_adds_only_companions_witness :
  exists d',
    dict_contains "model_args" d' = true
    /\ dict_contains "batch_size_args" d' = false.
Proof.
  destruct (completion_adds_only_companions
              (Scenario.start Scenario.fixed Scenario.mutable [])
              0 1 Scenario.fixed Scenario.mutable eq_refl eq_refl eq_refl)
    as (comps & s1 & s2 & d' & _ & _ & _ & Keys).
  exists d'. split.
  - apply Keys. right. exists "model". split; [now left|]. split; [reflexivity|].
    now left.
  - destruct (dict_contains "batch_size_args" d') eqn:C; [|reflexivity].
    apply Keys in C as [[C|C]|(k & _ & T & [E|E])]; try discriminate C.
    + apply (append_suffix_inj "batch_size" k "_args") in E. now subst k.
    + now apply (args_key_neq_kwargs_key "batch_size" k) in E.
Defined.

(** ** A second pass of completion *)

Lemma completed_for_same (k : string) (d : dict) :
  (takes_arguments k = true ->
   dict_contains (args_key k) d = true /\ dict_contains (kwargs_key k) d = true) ->
  completed_for k d = d.
Proof.
  intros H. unfold completed_for. destruct (takes_arguments k); [|reflexivity].
  destruct (H eq_refl) as [A K]. now rewrite A, K.
Qed.

Lemma completed_same (ks : list string) (d : dict) :
  complete d -> (forall k, In k ks -> dict_contains k d = true) ->
  completed ks d = d.
Proof.
  intros Hc Hk. induction ks as [|k ks IH]; simpl; [reflexivity|].
  rewrite completed_for_same.
  - apply IH. intros k' I. apply Hk. now right.
  - intros T. apply Hc; [|exact T]. apply Hk. now left.
Qed.

Lemma completed_complete (d : dict) : complete (completed (dict_keys d) d).
Proof.
  intros k C T.
  destruct (dict_get k d) as [v|] eqn:G.
  - apply completed_adds; [|exact T].
    apply dict_contains_keys. unfold dict_contains. now rewrite G.
  - unfold takes_arguments in T. apply andb_prop in T as [_ T].
    apply negb_true_iff, orb_false_elim in T as [Na Nk].
    destruct (completed_fresh (dict_keys d) k d (or_introl G))
      as [N|[(x & -> & _)|(x & -> & _)]].
    + unfold dict_contains in C. now rewrite N in C.
    + now rewrite endswith_args_key in Na.
    + now rewrite endswith_kwargs_key in Nk.
Qed.

(** X2.  Lines 46-54 are idempotent: run on any dictionary they succeed, and
    run again on the result they write nothing. *)
Theorem completion_is_idempotent (s : state) (comps : nat) (d : dict) :
  dicts s !! comps = Some d ->
  exists s1,
    add_missing_arguments comps s = (inr tt, s1)
    /\ add_missing_arguments comps s1 = (inr tt, s1).
Proof.
  intros L. set (d1 := completed (dict_keys d) d).
  assert (L1 : dicts (with_dict comps d1 s) !! comps = Some d1)
    by now apply with_dict_live with d.
  exists (with_dict comps d1 s). split; [now apply add_missing_arguments_live|].
  rewrite (add_missing_arguments_live _ comps d1 L1).
  rewrite completed_same.
  - now rewrite (with_dict_same _ comps d1 L1).
  - apply completed_complete.
  - intros k I. now apply dict_contains_keys.
Qed.

Lemma completion_is_idempotent_witness :
  exists s1,
    add_missing_arguments 0 (mkState [Scenario.fixed] [] []) = (inr tt, s1)
    /\ add_missing_arguments 0 s1 = (inr tt, s1).
Proof.
  exact (completion_is_idempotent (mkState [Scenario.fixed] [] []) 0 Scenario.fixed
           eq_refl).
Defined.

(** ** What a run can raise *)




(** ** A run that cannot fail *)




(** ** When the training loop raises *)


(** ** Requests that are never checked *)

(** X6.  [zip(metrics, results)] stops at the shorter sequence.  So a run
    whose training loop returned no result at all returns [True] whatever
    the acceptable values are, and so does a run for which the caller
    requested no metric. *)
Theorem verdict_is_true_without_pairs
    (env : collaborators) (s : state) (fixed mutable metrics : nat)
    (ms : list MetricRequest) (b : bool) (s' : state) :
  lists s !! metrics = Some ms ->
  run_recipe env fixed mutable metrics s = (inr b, s') ->
  exists h ex ts vs op ep ba on ev results,
    do_test_training env h ex ts vs op ep ba on
      (map fst ms ++ [WallclockTime 0 1]) ev = inr results
    /\ (results = [] -> b = true)
    /\ (ms = [] -> b = true)
    /\ (b = true ->
        trace s' = h ++ [Called (test_training ex ts vs op ep ba on
                                   (map fst ms ++ [WallclockTime 0 1]) ev);
                         Printed PASSED]).
Proof.
  intros Ll E.
  destruct (run_recipe_returns env s fixed mutable metrics ms b s' Ll E)
    as (t & ex & ts & vs & op & ep & ba & on & ev & results & _ & R & -> & _ & T).
  unfold wallclock in *. rewrite map_app in *. simpl in R, T.
  exists (trace s ++ t), ex, ts, vs, op, ep, ba, on, ev, results.
  split; [exact R|]. split; [|split].
  - intros ->. now rewrite combine_nil.
  - intros ->. simpl. now destruct results.
  - intros A. rewrite T. unfold report, diagnostics. rewrite A.
    apply all_acceptable_filter in A. now rewrite A.
Qed.

Lemma verdict_is_true_without_pairs_witness :
  exists h c,
    trace (snd (run_recipe (Scenario.world 0.5) 0 1 0
                  (Scenario.start Scenario.fixed Scenario.mutable [])))
    = h ++ [Called c; Printed PASSED].
Proof.
  assert (X : run_recipe (Scenario.world 0.5) 0 1 0
                (Scenario.start Scenario.fixed Scenario.mutable [])
              = (inr true,
                 snd (run_recipe (Scenario.world 0.5) 0 1 0
                        (Scenario.start Scenario.fixed Scenario.mutable []))))
    by (vm_compute; reflexivity).
  destruct (verdict_is_true_without_pairs (Scenario.world 0.5)
              (Scenario.start Scenario.fixed Scenario.mutable [])
              0 1 0 [] _ _ eq_refl X)
    as (h & ex & ts & vs & op & ep & ba & on & ev & results & _ & _ & _ & Passed).
  eexists _, _. now apply Passed.
Defined.


(** ** Running twice on the same list *)

(** X7.  The wall-clock entry stays in the caller's list.  When a second run
    is given the list a first run returned from, the list ends with two
    wall-clock entries and the second training loop is handed the
    wall-clock metric twice. *)
Theorem second_run_measures_wallclock_twice
    (env env' : collaborators) (s : state)
    (fixed mutable fixed' mutable' metrics : nat)
    (ms : list MetricRequest) (b b' : bool) (s1 s2 : state) :
  lists s !! metrics = Some ms ->
  run_recipe env fixed mutable metrics s = (inr b, s1) ->
  run_recipe env' fixed' mutable' metrics s1 = (inr b', s2) ->
  lists s2 !! metrics
  = Some (ms ++ [(WallclockTime 0 1, None); (WallclockTime 0 1, None)])
  /\ exists h ex ts vs op ep ba on ev results,
       do_test_training env' h ex ts vs op ep ba on
         (map fst ms ++ [WallclockTime 0 1; WallclockTime 0 1]) ev = inr results
       /\ In (Called (test_training ex ts vs op ep ba on
                        (map fst ms ++ [WallclockTime 0 1; WallclockTime 0 1]) ev))
            (trace s2).
Proof.
  intros Ll E1 E2.
  destruct (run_recipe_returns env s fixed mutable metrics ms b s1 Ll E1)
    as (t & ex & ts & vs & op & ep & ba & on & ev & results & _ & _ & _ & L1 & _).
  destruct (run_recipe_returns env' s1 fixed' mutable' metrics _ b' s2 L1 E2)
    as (t' & ex' & ts' & vs' & op' & ep' & ba' & on' & ev' & results' & _ & R & _
        & L2 & T).
  unfold wallclock in *.
  rewrite !map_app, <- (app_assoc (map fst ms)) in R.
  rewrite !map_app, <- (app_assoc (map fst ms)) in T.
  rewrite <- app_assoc in L2.
  split; [exact L2|].
  exists (trace s1 ++ t'), ex', ts', vs', op', ep', ba', on', ev', results'.
  split; [exact R|]. rewrite T. apply in_app_iff. right. simpl. now left.
Qed.

Lemma second_run_measures_wallclock_twice_witness :
  lists (snd (run_recipe (Scenario.world 0.5) 0 1 0
                (snd (run_recipe (Scenario.world 0.5) 0 1 0
                        (Scenario.start Scenario.fixed Scenario.mutable []))))) !! 0
  = Some ([] ++ [(WallclockTime 0 1, None); (WallclockTime 0 1, None)]).
Proof.
  refine (proj1 (second_run_measures_wallclock_twice
                   (Scenario.world 0.5) (Scenario.world 0.5)
                   (Scenario.start Scenario.fixed Scenario.mutable [])
                   0 1 0 1 0 [] true true _ _ eq_refl _ _));
    vm_compute; reflexivity.
Defined.

(** ** The rest of the store *)



(** ** The calls of a run that returns *)

Lemma ran_refl (s : state) : ran s s [].
Proof. repeat split. now rewrite app_nil_r. Qed.

Lemma ran_log (s : state) (e : event) : ran s (log e s) [e].
Proof. now repeat split. Qed.

Lemma ran_trans (s s1 s2 : state) (a b : list event) :
  ran s s1 a -> ran s1 s2 b -> ran s s2 (a ++ b).
Proof.
  intros (D1 & L1 & T1) (D2 & L2 & T2).
  split; [congruence|]. split; [congruence|]. now rewrite T2, T1, app_assoc.
Qed.

Lemma ran_live (s s' : state) (evs : list event) (r : nat) (d : dict) :
  ran s s' evs -> dicts s !! r = Some d -> dicts s' !! r = Some d.
Proof. intros (-> & _) L. exact L. Qed.

Lemma obtain_dataset_metadata_returns
    (env : collaborators) (s : state) (comps : nat) (d : dict)
    (loss_op : value) (ds_classes : Z) (sample_shape : list Z) (s1 : state) :
  dicts s !! comps = Some d ->
  obtain_dataset_metadata env comps s = (inr (loss_op, ds_classes, sample_shape), s1) ->
  exists ds,
    dict_get "dataset" d = Some ds
    /\ do_dataset_loss env (trace s) ds = inr loss_op
    /\ do_dataset_shape env (trace s ++ [Called (dataset_loss ds)]) ds
       = inr (ds_classes :: sample_shape)
    /\ ran s s1 [Called (dataset_loss ds); Called (dataset_shape ds)].
Proof.
  intros L E1. unfold obtain_dataset_metadata, bind in E1.
  erewrite require_live in E1 by exact L.
  destruct (dict_contains "dataset" d) eqn:Cd; [|discriminate E1].
  destruct (contains_get _ _ Cd) as [ds Gd].
  read_in getitem_live E1 L Gd. unfold invoke at 1 in E1; unfold outcome at 1 in E1.
  destruct (do_dataset_loss env (trace s) ds) as [e|loss_op'] eqn:R1; [discriminate E1|].
  read_in getitem_live E1 L Gd. unfold invoke, outcome in E1.
  destruct (do_dataset_shape env _ ds) as [e|[|c sh]] eqn:R2;
    [discriminate E1 | discriminate E1 |].
  unfold ret in E1. injection E1 as -> -> -> <-.
  exists ds. split; [exact Gd|]. split; [exact R1|]. split; [exact R2|].
  repeat split. simpl. now rewrite <- app_assoc.
Qed.

Lemma construct_network_returns
    (env : collaborators) (s : state) (comps : nat) (d : dict)
    (loss_op : value) (sample_shape : list Z)
    (batch network input_node output_node : value) (s1 : state) :
  dicts s !! comps = Some d ->
  construct_network env comps loss_op sample_shape s
  = (inr (batch, network, input_node, output_node), s1) ->
  exists model model_args model_kwargs op h h',
    dict_get "model" d = Some model
    /\ dict_get "batch_size" d = Some batch
    /\ dict_get "model_args" d = Some model_args
    /\ dict_get "model_kwargs" d = Some model_kwargs
    /\ do_create_model env (trace s) model batch model_args sample_shape model_kwargs
       = inr (network, input_node, output_node)
    /\ do_loss_op env h loss_op [output_node; VStr "label"] "loss" = inr op
    /\ do_add_operation env h' network op = inr tt
    /\ ran s s1
         [Called (create_model model batch model_args sample_shape model_kwargs);
          Called (loss_op_call loss_op [output_node; VStr "label"] "loss");
          Called (add_operation network op)].
Proof.
  intros L E2. unfold construct_network, bind in E2.
  erewrite require_live in E2 by exact L.
  destruct (dict_contains "model" d) eqn:Cm; [|discriminate E2].
  erewrite require_live in E2 by exact L.
  destruct (dict_contains "batch_size" d) eqn:Cb; [|discriminate E2].
  destruct (contains_get _ _ Cm) as [model Gm], (contains_get _ _ Cb) as [batch' Gb].
  read_in getitem_live E2 L Gb. read_in getitem_live E2 L Gm.
  erewrite getitem_live in E2 by exact L.
  destruct (dict_get "model_args" d) as [a|] eqn:Ga; [|discriminate E2].
  cbn beta iota in E2. erewrite getitem_live in E2 by exact L.
  destruct (dict_get "model_kwargs" d) as [kw|] eqn:Gk; [|discriminate E2].
  cbn beta iota in E2. unfold invoke at 1 in E2; unfold outcome at 1 in E2.
  destruct (do_create_model env _ model batch' a sample_shape kw)
    as [e|[[network' input_node'] output_node']] eqn:R3; [discriminate E2|].
  unfold invoke at 1 in E2; unfold outcome at 1 in E2.
  destruct (do_loss_op env _ loss_op [output_node'; VStr "label"] "loss")
    as [e|op] eqn:R4; [discriminate E2|].
  unfold invoke, outcome in E2.
  destruct (do_add_operation env _ network' op) as [e|[]] eqn:R5; [discriminate E2|].
  unfold ret in E2. injection E2 as -> -> -> -> <-.
  exists model, a, kw, op. do 2 eexists.
  repeat (split; [first [eassumption | reflexivity]|]).
  repeat split. simpl. now rewrite <- !app_assoc.
Qed.

Lemma construct_dataset_returns
    (env : collaborators) (s : state) (comps : nat) (d : dict)
    (input_node train_set validation_set : value) (s1 : state) :
  dicts s !! comps = Some d ->
  construct_dataset env comps input_node s = (inr (train_set, validation_set), s1) ->
  exists ds dataset_args dataset_kwargs,
    dict_get "dataset" d = Some ds
    /\ dict_get "dataset_args" d = Some dataset_args
    /\ dict_get "dataset_kwargs" d = Some dataset_kwargs
    /\ do_load_dataset env (trace s) ds input_node "label" dataset_args dataset_kwargs
       = inr (train_set, validation_set)
    /\ ran s s1 [Called (load_dataset ds input_node "label" dataset_args
                           dataset_kwargs)].
Proof.
  intros L E. unfold construct_dataset, bind in E.
  erewrite getitem_live in E by exact L.
  destruct (dict_get "dataset" d) as [ds|] eqn:G; [|discriminate E].
  cbn beta iota in E. erewrite getitem_live in E by exact L.
  destruct (dict_get "dataset_args" d) as [a|] eqn:Ga; [|discriminate E].
  cbn beta iota in E. erewrite getitem_live in E by exact L.
  destruct (dict_get "dataset_kwargs" d) as [kw|] eqn:Gk; [|discriminate E].
  cbn beta iota in E. unfold invoke, outcome in E.
  destruct (do_load_dataset env (trace s) ds input_node "label" a kw)
    as [e|[ts vs]] eqn:R; [discriminate E|].
  injection E as -> -> <-. exists ds, a, kw.
  repeat (split; [first [eassumption | reflexivity]|]). apply ran_log.
Qed.

Lemma instantiate_returns
    (env : collaborators) (s : state) (comps : nat) (d : dict)
    (key : string) (positional : list value) (x : value) (s1 : state) :
  dicts s !! comps = Some d ->
  instantiate env comps key positional s = (inr x, s1) ->
  exists factory args kwargs,
    dict_get key d = Some factory
    /\ dict_get (args_key key) d = Some args
    /\ dict_get (kwargs_key key) d = Some kwargs
    /\ do_construct env (trace s) factory positional args kwargs = inr x
    /\ ran s s1 [Called (construct factory positional args kwargs)].
Proof.
  intros L E. unfold instantiate, bind in E.
  erewrite getitem_live in E by exact L.
  destruct (dict_get key d) as [factory|] eqn:G; [|discriminate E].
  cbn beta iota in E. erewrite getitem_live in E by exact L.
  destruct (dict_get (args_key key) d) as [a|] eqn:Ga; [|discriminate E].
  cbn beta iota in E. erewrite getitem_live in E by exact L.
  destruct (dict_get (kwargs_key key) d) as [kw|] eqn:Gk; [|discriminate E].
  cbn beta iota in E. unfold invoke, outcome in E.
  destruct (do_construct env (trace s) factory positional a kw) as [e|v] eqn:R;
    [discriminate E|].
  injection E as -> <-. exists factory, a, kw.
  repeat (split; [first [eassumption | reflexivity]|]). apply ran_log.
Qed.

Lemma construct_sampler_returns
    (env : collaborators) (s : state) (comps : nat) (d : dict)
    (key : string) (set batch x : value) (s1 : state) :
  dicts s !! comps = Some d ->
  construct_sampler env comps key set batch s = (inr x, s1) ->
  exists calls,
    ran s s1 calls
    /\ match dict_get key d with
       | Some factory =>
           exists args kwargs,
             dict_get (args_key key) d = Some args
             /\ dict_get (kwargs_key key) d = Some kwargs
             /\ do_construct env (trace s) factory [set; batch] args kwargs = inr x
             /\ calls = [Called (construct factory [set; batch] args kwargs)]
       | None => calls = [] /\ x = set
       end.
Proof.
  intros L E. unfold construct_sampler, bind in E.
  erewrite contains_live in E by exact L. unfold dict_contains in E.
  destruct (dict_get key d) as [factory|] eqn:G.
  - destruct (instantiate_returns env s comps d key [set; batch] x s1 L E)
      as (factory' & a & kw & G' & Ga & Gk & R & Q).
    rewrite G in G'. injection G' as <-.
    eexists. split; [exact Q|]. now exists a, kw.
  - unfold ret in E. injection E as <- <-.
    exists []. split; [apply ran_refl | now split].
Qed.

Lemma required_then_instantiated
    (env : collaborators) (s : state) (comps : nat) (d : dict)
    (key msg : string) (positional : list value) (x : value) (s1 : state) :
  dicts s !! comps = Some d ->
  (require comps key msg ;; instantiate env comps key positional) s = (inr x, s1) ->
  instantiate env comps key positional s = (inr x, s1).
Proof.
  intros L E. unfold bind in E. erewrite require_live in E by exact L.
  now destruct (dict_contains key d).
Qed.

Lemma completed_get_plain (ks : list string) (j : string) (d : dict) :
  endswith j "_args" = false -> endswith j "_kwargs" = false ->
  dict_get j (completed ks d) = dict_get j d.
Proof.
  intros Na Nk. destruct (dict_get j d) as [v|] eqn:G.
  - now apply completed_keeps.
  - destruct (completed_fresh ks j d (or_introl G)) as [N|[(x & -> & _)|(x & -> & _)]].
    + exact N.
    + now rewrite endswith_args_key in Na.
    + now rewrite endswith_kwargs_key in Nk.
Qed.

Lemma events_defaulted_events (d : dict) :
  dict_get "events" (events_defaulted d) = Some (default VNone (dict_get "events" d)).
Proof.
  unfold events_defaulted, dict_contains.
  destruct (dict_get "events" d) as [v|] eqn:G; simpl; [exact G|].
  apply dict_get_set_eq.
Qed.

(** X9.  A run that returns made exactly these calls, in this order, and
    printed its report after them: the loss constructor and the shape of the
    dataset; the model, with the batch size, [*model_args], the shape
    without its first element and [**model_kwargs]; the loss constructor on
    the model's output node and ['label'], named ['loss'], and its addition
    to the network; the dataset loader with the model's input node, ['label'],
    [*dataset_args] and [**dataset_kwargs]; each configured sampler on its
    own dataset; the executor factory on the network; the optimizer factory
    on that executor and ['loss']; and the training loop on that executor,
    the two samplers (or datasets), that optimizer, [comps['epochs']], the
    batch size, the model's output node, the metrics with the wall-clock
    metric last, and [comps['events']], [None] when the caller gave none. *)
Theorem calls_of_a_returning_run
    (env : collaborators) (s : state) (fixed mutable metrics : nat)
    (f m : dict) (ms : list MetricRequest) (b : bool) (s' : state) :
  dicts s !! fixed = Some f ->
  dicts s !! mutable = Some m ->
  lists s !! metrics = Some ms ->
  run_recipe env fixed mutable metrics s = (inr b, s') ->
  exists ds model batch model_args model_kwargs dataset_args dataset_kwargs
         executor_factory executor_args executor_kwargs
         optimizer_factory optimizer_args optimizer_kwargs epochs
         loss_op ds_classes sample_shape network input_node output_node op
         train_set validation_set train_calls train_sampler
         validation_calls validation_sampler executor optimizer results,
    let d := normalized f m in
    let events := default VNone (dict_get "events" (dict_merge f m)) in
    let handed := map fst ms ++ [WallclockTime 0 1] in
    (dict_get "dataset" d = Some ds
     /\ dict_get "model" d = Some model
     /\ dict_get "batch_size" d = Some batch
     /\ dict_get "model_args" d = Some model_args
     /\ dict_get "model_kwargs" d = Some model_kwargs
     /\ dict_get "dataset_args" d = Some dataset_args
     /\ dict_get "dataset_kwargs" d = Some dataset_kwargs
     /\ dict_get "executor" d = Some executor_factory
     /\ dict_get "executor_args" d = Some executor_args
     /\ dict_get "executor_kwargs" d = Some executor_kwargs
     /\ dict_get "optimizer" d = Some optimizer_factory
     /\ dict_get "optimizer_args" d = Some optimizer_args
     /\ dict_get "optimizer_kwargs" d = Some optimizer_kwargs
     /\ dict_get "epochs" d = Some epochs)
    /\ ((exists h, do_dataset_loss env h ds = inr loss_op)
        /\ (exists h, do_dataset_shape env h ds = inr (ds_classes :: sample_shape))
        /\ (exists h, do_create_model env h model batch model_args sample_shape
                        model_kwargs = inr (network, input_node, output_node))
        /\ (exists h, do_loss_op env h loss_op [output_node; VStr "label"] "loss"
                      = inr op)
        /\ (exists h, do_load_dataset env h ds input_node "label" dataset_args
                        dataset_kwargs = inr (train_set, validation_set))
        /\ (exists h, do_construct env h executor_factory [network] executor_args
                        executor_kwargs = inr executor)
        /\ (exists h, do_construct env h optimizer_factory [executor; VStr "loss"]
                        optimizer_args optimizer_kwargs = inr optimizer)
        /\ (exists h, do_test_training env h executor train_sampler validation_sampler
                        optimizer epochs batch output_node handed events
                      = inr results))
    /\ match dict_get "train_sampler" d with
       | Some factory =>
           exists args kwargs h,
             dict_get "train_sampler_args" d = Some args
             /\ dict_get "train_sampler_kwargs" d = Some kwargs
             /\ do_construct env h factory [train_set; batch] args kwargs
                = inr train_sampler
             /\ train_calls = [Called (construct factory [train_set; batch] args kwargs)]
       | None => train_calls = [] /\ train_sampler = train_set
       end
    /\ match dict_get "validation_sampler" d with
       | Some factory =>
           exists args kwargs h,
             dict_get "validation_sampler_args" d = Some args
             /\ dict_get "validation_sampler_kwargs" d = Some kwargs
             /\ do_construct env h factory [validation_set; batch] args kwargs
                = inr validation_sampler
             /\ validation_calls
                = [Called (construct factory [validation_set; batch] args kwargs)]
       | None => validation_calls = [] /\ validation_sampler = validation_set
       end
    /\ trace s'
       = trace s
         ++ [Called (dataset_loss ds);
             Called (dataset_shape ds);
             Called (create_model model batch model_args sample_shape model_kwargs);
             Called (loss_op_call loss_op [output_node; VStr "label"] "loss");
             Called (add_operation network op);
             Called (load_dataset ds input_node "label" dataset_args dataset_kwargs)]
         ++ train_calls ++ validation_calls
         ++ [Called (construct executor_factory [network] executor_args
                       executor_kwargs);
             Called (construct optimizer_factory [executor; VStr "loss"]
                       optimizer_args optimizer_kwargs);
             Called (test_training executor train_sampler validation_sampler
                       optimizer epochs batch output_node handed events)]
         ++ report (combine (ms ++ [(WallclockTime 0 1, None)]) results).
Proof.
  intros Lf Lm Ll E.
  assert (Ho : overlap f m = false).
  { rewrite run_recipe_front, Lf, Lm in E. now destruct (overlap f m). }
  rewrite (run_recipe_resolves env s fixed mutable metrics f m Lf Lm Ho) in E.
  set (d := normalized f m) in *. set (comps := length (dicts s)) in *.
  set (s0 := built d s) in *.
  assert (L0 : dicts s0 !! comps = Some d) by apply built_live.
  unfold resolve_and_run, bind in E.
  (* lines 57-77 *)
  destruct (obtain_dataset_metadata env comps s0) as [[e|[[loss_op c] sh]] s1] eqn:E1;
    [discriminate E|].
  destruct (obtain_dataset_metadata_returns env s0 comps d _ _ _ _ L0 E1)
    as (ds & Gds & R1 & R2 & Q1).
  pose proof (ran_live _ _ _ _ _ Q1 L0) as L1.
  destruct (construct_network env comps loss_op sh s1)
    as [[e|[[[batch network] input_node] output_node]] s2] eqn:E2; [discriminate E|].
  destruct (construct_network_returns env s1 comps d _ _ _ _ _ _ _ L1 E2)
    as (model & margs & mkw & op & h4 & h5 & Gm & Gb & Gma & Gmk & R3 & R4 & R5 & Q2).
  pose proof (ran_trans _ _ _ _ _ Q1 Q2) as Q02.
  pose proof (ran_live _ _ _ _ _ Q02 L0) as L2.
  (* lines 79-97 *)
  destruct (construct_dataset env comps input_node s2)
    as [[e|[train_set validation_set]] s3] eqn:E3; [discriminate E|].
  destruct (construct_dataset_returns env s2 comps d _ _ _ _ L2 E3)
    as (ds' & dargs & dkw & Gds' & Gda & Gdk & R6 & Q3).
  rewrite Gds in Gds'. injection Gds' as <-.
  pose proof (ran_trans _ _ _ _ _ Q02 Q3) as Q03.
  pose proof (ran_live _ _ _ _ _ Q03 L0) as L3.
  destruct (construct_sampler env comps "train_sampler" train_set batch s3)
    as [[e|train_sampler] s4] eqn:E4; [discriminate E|].
  destruct (construct_sampler_returns env s3 comps d _ _ _ _ _ L3 E4)
    as (train_calls & Q4 & Ht).
  pose proof (ran_trans _ _ _ _ _ Q03 Q4) as Q04.
  pose proof (ran_live _ _ _ _ _ Q04 L0) as L4.
  destruct (construct_sampler env comps "validation_sampler" validation_set batch s4)
    as [[e|validation_sampler] s5] eqn:E5; [discriminate E|].
  destruct (construct_sampler_returns env s4 comps d _ _ _ _ _ L4 E5)
    as (validation_calls & Q5 & Hv).
  pose proof (ran_trans _ _ _ _ _ Q04 Q5) as Q05.
  pose proof (ran_live _ _ _ _ _ Q05 L0) as L5.
  (* lines 99-109 *)
  destruct (construct_executor env comps network s5) as [[e|executor] s6] eqn:E6;
    [discriminate E|].
  apply (required_then_instantiated env s5 comps d _ _ _ _ _ L5) in E6.
  destruct (instantiate_returns env s5 comps d _ _ _ _ L5 E6)
    as (ef & ea & ek & Gef & Gea & Gek & R7 & Q6).
  pose proof (ran_trans _ _ _ _ _ Q05 Q6) as Q06.
  pose proof (ran_live _ _ _ _ _ Q06 L0) as L6.
  destruct (construct_optimizer env comps executor s6) as [[e|optimizer] s7] eqn:E7;
    [discriminate E|].
  apply (required_then_instantiated env s6 comps d _ _ _ _ _ L6) in E7.
  destruct (instantiate_returns env s6 comps d _ _ _ _ L6 E7)
    as (opf & oa & okw & Gof & Goa & Gok & R8 & Q7).
  pose proof (ran_trans _ _ _ _ _ Q06 Q7) as Q07.
  pose proof (ran_live _ _ _ _ _ Q07 L0) as L7.
  (* lines 111-138 *)
  assert (Ll7 : lists s7 !! metrics = Some ms).
  { destruct Q07 as (_ & -> & _). exact Ll. }
  rewrite (add_total_time_live s7 metrics ms Ll7) in E.
  set (s8 := with_list metrics (ms ++ [wallclock]) s7) in *.
  assert (Ll8 : lists s8 !! metrics = Some (ms ++ [wallclock])).
  { simpl. apply list_lookup_insert_eq. now apply lookup_lt_Some with ms. }
  rewrite (create_trainer_and_run_live env s8 comps metrics d (ms ++ [wallclock])
             executor train_sampler validation_sampler optimizer batch output_node
             L7 Ll8) in E.
  destruct (dict_get "epochs" d) as [ep|] eqn:Gep; [|discriminate E].
  rewrite events_defaulted_events in E. cbv zeta in E.
  assert (Gev : dict_get "events" d = dict_get "events" (dict_merge f m))
    by (now apply completed_get_plain).
  rewrite Gev in E. unfold wallclock in E. rewrite map_app in E.
  change (trace s8) with (trace s7) in E.
  set (ev := default VNone (dict_get "events" (dict_merge f m))) in *.
  unfold outcome in E.
  destruct (do_test_training env (trace s7) _ _ _ _ _ _ _ _ _)
    as [e|results] eqn:R9; [discriminate E|].
  erewrite verify_results_live in E by exact Ll8.
  injection E as _ <-.
  exists ds, model, batch, margs, mkw, dargs, dkw, ef, ea, ek, opf, oa, okw, ep,
         loss_op, c, sh, network, input_node, output_node, op,
         train_set, validation_set, train_calls, train_sampler,
         validation_calls, validation_sampler, executor, optimizer, results.
  cbv zeta. split; [now repeat split|]. split.
  { repeat split; eexists; eassumption. }
  split.
  { destruct (dict_get "train_sampler" d); [|exact Ht].
    destruct Ht as (a & kw & Ga & Gk & R & ->). now exists a, kw, (trace s3). }
  split.
  { destruct (dict_get "validation_sampler" d); [|exact Hv].
    destruct Hv as (a & kw & Ga & Gk & R & ->). now exists a, kw, (trace s4). }
  destruct Q07 as (_ & _ & T7). simpl. rewrite T7. simpl.
  repeat (rewrite <- app_assoc || rewrite <- app_comm_cons). reflexivity.
Qed.

Lemma calls_of_a_returning_run_witness :
  exists factory args kwargs network executor h,
    dict_get "executor" (normalized Scenario.fixed Scenario.mutable) = Some factory
    /\ do_construct (Scenario.world 0.5) h factory [network] args kwargs = inr executor.
Proof.
  assert (X : run_recipe (Scenario.world 0.5) 0 1 0
                (Scenario.start Scenario.fixed Scenario.mutable [])
              = (inr true,
                 snd (run_recipe (Scenario.world 0.5) 0 1 0
                        (Scenario.start Scenario.fixed Scenario.mutable []))))
    by (vm_compute; reflexivity).
  destruct (calls_of_a_returning_run (Scenario.world 0.5)
              (Scenario.start Scenario.fixed Scenario.mutable [])
              0 1 0 Scenario.fixed Scenario.mutable [] true _
              eq_refl eq_refl eq_refl X)
    as (ds & model & batch & model_args & model_kwargs & dataset_args
        & dataset_kwargs & executor_factory & executor_args & executor_kwargs
        & optimizer_factory & optimizer_args & optimizer_kwargs & epochs
        & loss_op & ds_classes & sample_shape & network & input_node & output_node
        & op & train_set & validation_set & train_calls & train_sampler
        & validation_calls & validation_sampler & executor & optimizer & results
        & Config & Answers & _).
  destruct Config as (_ & _ & _ & _ & _ & _ & _ & Ge & _).
  destruct Answers as (_ & _ & _ & _ & _ & [h R] & _).
  now exists executor_factory, executor_args, executor_kwargs, network, executor, h.
Defined.
